(** * dashboard.py: the filter-and-recompute callback of the sleep dashboard

    A shallow embedding of [src/dashboard.py]: the dataset loader
    (lines 12-14), the page and its controls (lines 38-176),
    [filter_dataframe] (lines 181-197), [create_base_layout]
    (lines 199-206) and the callback [update_dashboard] with its
    decorator (lines 211-313).

    Python floats and pandas' float64 columns are IEEE 754 binary64; they
    are modelled by Rocq's primitive floats, which are binary64 with
    round-to-nearest-even.  Facts about their comparisons are obtained from
    the specification of the primitives over [spec_float]. *)

From Stdlib Require Import ZArith String Ascii Floats DecimalString.
From stdpp Require Import base tactics option list strings sorting.

Open Scope Z_scope.
#[local] Set Warnings "-inexact-float,-register-all".

(** ** Python floats *)

Module PyFloat.

(** [x >= y] on floats: true when the comparison says greater or equal,
    false when either side is NaN. *)
Definition geb (x y : float) : bool :=
  match PrimFloat.compare x y with
  | FEq | FGt => true
  | FLt | FNotComparable => false
  end.

(** [x <= y] on floats is the primitive [PrimFloat.leb]. *)
Definition leb (x y : float) : bool := PrimFloat.leb x y.

(** [float(n)] for a Python int, and numpy's int64 to float64 conversion:
    the nearest double, ties to even. *)
Definition of_Z (z : Z) : float := SF2Prim (binary_normalize prec emax z 0 false).

(** The integer nearest to [m * 2^e * 10], ties to even: the digits that
    a correctly rounded conversion to one decimal place prints. *)
Definition round_tenths (m : positive) (e : Z) : Z :=
  if 0 <=? e then Z.pos m * 2 ^ e * 10
  else
    let den := 2 ^ (- e) in
    let num := Z.pos m * 10 in
    let q := num / den in
    let r := num mod den in
    if 2 * r <? den then q
    else if den <? 2 * r then q + 1
    else if Z.even q then q else q + 1.

Definition digits (n : Z) : string := NilZero.string_of_uint (N.to_uint (Z.to_N n)).

Definition sign_str (s : bool) : string := if s then "-" else "".

(** [format(x, ".1f")], the conversion behind [f"{x:.1f}"]: the exact
    binary value rounded to one decimal place, ties to even; the sign bit
    is printed also for a negative zero; NaN prints as [nan] and the
    infinities as [inf] and [-inf]. *)
Definition format_1f (x : float) : string :=
  match Prim2SF x with
  | S754_nan => "nan"
  | S754_infinity s => sign_str s +:+ "inf"
  | S754_zero s => sign_str s +:+ "0.0"
  | S754_finite s m e =>
      let n := round_tenths m e in
      sign_str s +:+ digits (n / 10) +:+ "." +:+ digits (n mod 10)
  end.

End PyFloat.

(** ** Data model *)

(** One row of the loaded table as lines 181-313 see it, with the columns
    they read: [Sample ID] (line 14), [Sleep Duration] (float64; NaN where
    the file has no value), [Quality of Sleep] and [Stress Level] (int64),
    [Physical Activity Level] (only compared for equality, here a string
    as in the dropdown's labels), and the columns no filter reads. *)
Record row := Row {
  sample_id : Z;
  sleep_duration : float;
  quality_of_sleep : Z;
  stress_level : Z;
  physical_activity_level : string;
  other_columns : list (string * string)
}.

(** A DataFrame is the sequence of its rows, in index order. *)
Abbreviation DataFrame := (list row).

(** A column of a frame, [df['name']]. *)
Definition column {A} (f : row → A) (d : DataFrame) : list A := map f d.

(** Element-wise comparisons of a float Series with a scalar. *)
Definition series_ge (s : list float) (x : float) : list bool :=
  map (λ v, PyFloat.geb v x) s.
Definition series_le (s : list float) (x : float) : list bool :=
  map (λ v, PyFloat.leb v x) s.

(** [m1 & m2] on boolean Series. *)
Definition series_and (m1 m2 : list bool) : list bool := zip_with andb m1 m2.

(** [Series.isin(values)]. *)
Definition isin {A} `{EqDecision A} (s : list A) (values : list A) : list bool :=
  map (λ v, bool_decide (v ∈ values)) s.

(** Boolean indexing [df[mask]]: the rows whose mask entry is true, in
    order, as a new frame. *)
Fixpoint boolean_index (d : DataFrame) (mask : list bool) : DataFrame :=
  match d, mask with
  | r :: d', b :: mask' =>
      if b then r :: boolean_index d' mask' else boolean_index d' mask'
  | _, _ => []
  end.

(** ** Series reductions (pandas, with the default [skipna=True]) *)

(** numpy's reduction of a non-empty array by a binary operation that has
    no identity: the first element, then the others in order. *)
Definition reduce (op : float → float → float) (s : list float) : float :=
  match s with
  | [] => nan
  | x :: s' => foldl op x s'
  end.

(** [Series.min()] of a float column: NaN when the column is empty or
    every value is missing; otherwise the missing values are replaced by
    [+inf] and the least value is taken.  The comparison is strict, so of
    two zeros of different sign the later one is kept. *)
Definition fmin (a b : float) : float := if PrimFloat.ltb a b then a else b.

Definition series_min (s : list float) : float :=
  if forallb PrimFloat.is_nan s then nan
  else reduce fmin (map (λ v, if PrimFloat.is_nan v then infinity else v) s).

(** [Series.max()]: the same with [-inf] and the greatest value. *)
Definition fmax (a b : float) : float := if PrimFloat.ltb b a then a else b.

Definition series_max (s : list float) : float :=
  if forallb PrimFloat.is_nan s then nan
  else reduce fmax (map (λ v, if PrimFloat.is_nan v then neg_infinity else v) s).

(** numpy's sum of an array of doubles, the pairwise summation of its add
    loop.  Full blocks of eight values after the first are added into eight
    running sums. *)
Fixpoint add_blocks (r : list float) (a : list float) : list float * list float :=
  match a with
  | a0 :: a1 :: a2 :: a3 :: a4 :: a5 :: a6 :: a7 :: a' =>
      add_blocks (zip_with PrimFloat.add r [a0; a1; a2; a3; a4; a5; a6; a7]) a'
  | _ => (r, a)
  end.

(** Fewer than 8 values are added left to right.  Up to 128 values are
    added into the eight running sums, these are added in pairs, and the
    values left over, fewer than 8, are added one by one.  A longer array
    is cut in two near its middle, at a multiple of 8, and the sums of the
    two parts are added.  [fuel] bounds the number of cuts; the length of
    the array is always enough. *)
Fixpoint pairwise_sum (fuel : nat) (a : list float) : float :=
  let n := length a in
  if (n <? 8)%nat then foldl PrimFloat.add 0%float a
  else if (n <=? 128)%nat then
    match add_blocks (take 8 a) (drop 8 a) with
    | ([r0; r1; r2; r3; r4; r5; r6; r7], rest) =>
        foldl PrimFloat.add (((r0 + r1) + (r2 + r3)) + ((r4 + r5) + (r6 + r7)))%float rest
    | _ => nan
    end
  else
    match fuel with
    | O => nan
    | S fuel' =>
        let n2 := (n / 2 - (n / 2) mod 8)%nat in
        (pairwise_sum fuel' (take n2 a) + pairwise_sum fuel' (drop n2 a))%float
    end.

(** The sum of a float64 column: the reduction starts from the identity of
    the addition, [+0.0], and the column is summed in one piece. *)
Definition fsum (s : list float) : float :=
  (0 + pairwise_sum (length s) s)%float.

(** The pieces of at most [size] elements that a list is read in. *)
Fixpoint chunks {A} (fuel : nat) (size : nat) (l : list A) : list (list A) :=
  match fuel, l with
  | S fuel', _ :: _ => take size l :: chunks fuel' size (drop size l)
  | _, _ => []
  end.

(** The sum of an int64 column as doubles ([dtype=float64]): the values
    are converted through numpy's buffer, 8192 at a time, and each buffer
    is summed pairwise onto the running total. *)
Definition fsum_int (s : list Z) : float :=
  foldl (λ total piece, total + pairwise_sum (length piece) piece)%float 0%float
        (chunks (length s) (Z.to_nat 8192) (map PyFloat.of_Z s)).

(** [Series.mean()] of a float column: missing values count as zero in
    the sum and are left out of the count; NaN when the count is zero. *)
Definition series_mean (s : list float) : float :=
  let count := Z.of_nat (length (filter (λ v, PrimFloat.is_nan v = false) s)) in
  let the_sum := fsum (map (λ v, if PrimFloat.is_nan v then 0%float else v) s) in
  if 0 <? count then PrimFloat.div the_sum (PyFloat.of_Z count) else nan.

(** [Series.mean()] of an int64 column: the values are summed as doubles. *)
Definition series_mean_int (s : list Z) : float :=
  let count := Z.of_nat (length s) in
  let the_sum := fsum_int s in
  if 0 <? count then PrimFloat.div the_sum (PyFloat.of_Z count) else nan.

(** ** Objects, exceptions and the interpreter monad *)

Inductive exception :=
  | IndexError
  | TypeError
  | KeyError
  | ValueError
  | FileNotFoundError
  | PermissionError
  | ParserError.

Inductive result (A : Type) :=
  | Return (a : A)
  | Raise (e : exception).
Arguments Return {A} a.
Arguments Raise {A} e.

(** DataFrames are objects: the store maps an address to the frame that
    lives there.  Nothing in the program frees a frame. *)
Abbreviation ref := nat (only parsing).
Abbreviation heap := (list DataFrame).

(** A computation reads and extends the store and returns or raises. *)
Definition Py (A : Type) : Type := heap → result A * heap.

#[global] Instance Py_ret : MRet Py := λ A a h, (Return a, h).
#[global] Instance Py_bind : MBind Py := λ A B f m h,
  match m h with
  | (Return a, h') => f a h'
  | (Raise e, h') => (Raise e, h')
  end.

Definition raise {A} (e : exception) : Py A := λ h, (Raise e, h).

(** Allocation of a new frame object. *)
Definition new (d : DataFrame) : Py ref := λ h, (Return (length h), h ++ [d]).

(** The frame behind a reference.  Every reference the program holds was
    allocated; an address never allocated reads as the empty frame. *)
Definition read (r : ref) : Py DataFrame := λ h, (Return (h !!! r), h).

(** [df.copy()]. *)
Definition copy (r : ref) : Py ref := d ← read r; new d.

(** Truth value of an optional list argument: [None] and the empty list
    are false. *)
Definition truthy {A} (o : option (list A)) : bool :=
  match o with
  | Some (_ :: _) => true
  | _ => false
  end.

(** [o[i]]. *)
Definition subscript {A} (o : option (list A)) (i : nat) : Py A :=
  match o with
  | None => raise TypeError
  | Some l => match l !! i with
              | Some x => mret x
              | None => raise IndexError
              end
  end.

(** [len(o)]. *)
Definition len {A} (o : option (list A)) : Py Z :=
  match o with
  | None => raise TypeError
  | Some l => mret (Z.of_nat (length l))
  end.

(** The list behind a list-like argument. *)
Definition list_like {A} (o : option (list A)) : Py (list A) :=
  match o with
  | None => raise TypeError
  | Some l => mret l
  end.

(** ** [filter_dataframe], lines 181-197 *)

Definition filter_dataframe (df : ref)
    (sleep_range : option (list float))
    (stress : option (list Z))
    (activity : option (list string)) : Py ref :=
  filtered ← copy df;
  filtered ←
    (if truthy sleep_range then
       d ← read filtered;
       lo ← subscript sleep_range 0;
       hi ← subscript sleep_range 1;
       new (boolean_index d
              (series_and (series_ge (column sleep_duration d) lo)
                          (series_le (column sleep_duration d) hi)))
     else mret filtered);
  c ← (if truthy stress then n ← len stress; mret (0 <? n) else mret false);
  filtered ←
    (if c : bool then
       d ← read filtered;
       values ← list_like stress;
       new (boolean_index d (isin (column stress_level d) values))
     else mret filtered);
  c ← (if truthy activity then n ← len activity; mret (0 <? n) else mret false);
  filtered ←
    (if c : bool then
       d ← read filtered;
       values ← list_like activity;
       new (boolean_index d (isin (column physical_activity_level d) values))
     else mret filtered);
  mret filtered.

(** ** Statistics, lines 240-243 *)

Record statistics := Statistics {
  total_samples : Z;
  avg_sleep : string;
  avg_quality : string;
  avg_stress : string
}.

Definition summary_statistics (filtered : ref) : Py statistics :=
  d ← read filtered;
  let total_samples := Z.of_nat (length d) in
  let avg_sleep :=
    PyFloat.format_1f (series_mean (column sleep_duration d)) +:+ "h" in
  let avg_quality :=
    PyFloat.format_1f (series_mean_int (column quality_of_sleep d)) +:+ "/10" in
  let avg_stress :=
    PyFloat.format_1f (series_mean_int (column stress_level d)) +:+ "/10" in
  mret (Statistics total_samples avg_sleep avg_quality avg_stress).

(** ** Chart specifications, lines 245-310 *)

(** Keyword-argument values.  [PName] stands for a constant of the
    plotting library. *)
Inductive pyval :=
  | PStr (s : string)
  | PInt (z : Z)
  | PFloat (f : float)
  | PName (s : string)
  | PList (l : list pyval)
  | PDict (d : list (string * pyval)).

(** The plotting library is outside the program.  A figure is what the
    program hands to it: the builder called, the rows given, the keyword
    arguments, and the later trace and layout updates. *)
Record figure := Figure {
  fig_builder : string;
  fig_data : DataFrame;
  fig_kwargs : list (string * pyval);
  fig_traces : list (string * pyval);
  fig_layout : list (string * pyval)
}.

(** The keyword argument [key] of a call, when it is given. *)
Definition kwarg (kwargs : list (string * pyval)) (key : string) : option pyval :=
  (λ p, p.2.2) <$> list_find (λ kv, kv.1 = key) kwargs.

(** One step of the library is part of the model, because the program's
    fourth call runs into it.  [px.density_heatmap] has no [color]
    argument, and for each marginal plot it is asked for it builds a trace
    whose marker colour is [color_continuous_scale[0]].  For a scale given
    as a list of colours that is its first colour.  For a scale given by
    its name, a string, it is the first character of the name, and the
    trace's constructor raises ValueError for it: no notation of a colour
    is a single character.  The subscript itself raises IndexError on an
    empty string or list. *)
Definition marginal_color (kwargs : list (string * pyval)) : Py unit :=
  match kwarg kwargs "color_continuous_scale" with
  | Some (PStr EmptyString) | Some (PList []) => raise IndexError
  | Some (PStr _) => raise ValueError
  | _ => mret ()
  end.

Definition has_marginals (kwargs : list (string * pyval)) : bool :=
  bool_decide (is_Some (kwarg kwargs "marginal_x"))
  || bool_decide (is_Some (kwarg kwargs "marginal_y")).

Definition px (builder : string) (data : ref) (kwargs : list (string * pyval)) : Py figure :=
  d ← read data;
  (if bool_decide (builder = "density_heatmap") && has_marginals kwargs
   then marginal_color kwargs else mret ());;
  mret (Figure builder d kwargs [] []).

Definition update_traces (fig : figure) (kwargs : list (string * pyval)) : figure :=
  Figure (fig_builder fig) (fig_data fig) (fig_kwargs fig)
         (fig_traces fig ++ kwargs) (fig_layout fig).

Definition update_layout (fig : figure) (kwargs : list (string * pyval)) : figure :=
  Figure (fig_builder fig) (fig_data fig) (fig_kwargs fig)
         (fig_traces fig) (fig_layout fig ++ kwargs).

(** Lines 26-33. *)
Definition COLORS : list (string * string) :=
  [ ("primary", "#2C3E50");
    ("secondary", "#3498DB");
    ("accent", "#E74C3C");
    ("background", "#F8F9FA");
    ("card", "#FFFFFF");
    ("text", "#2C3E50") ].

(** [d[key]] on a dict of strings. *)
Definition getitem (d : list (string * string)) (key : string) : Py string :=
  match list_find (λ kv, kv.1 = key) d with
  | Some (_, (_, v)) => mret v
  | None => raise KeyError
  end.

(** Lines 199-206. *)
Definition create_base_layout : list (string * pyval) :=
  [ ("template", PStr "plotly_white");
    ("font", PDict [("family", PStr "Inter, sans-serif"); ("size", PInt 12)]);
    ("margin", PDict [("l", PInt 50); ("r", PInt 30); ("t", PInt 50); ("b", PInt 50)]);
    ("hovermode", PStr "closest") ].

(** ** The callback, lines 228-313 *)

(** The module-level name [df] (line 12) is bound once, to the first frame
    allocated; no function rebinds it. *)
Definition df : ref := 0%nat.

Record outputs := Outputs {
  out_stats : statistics;
  out_fig1 : figure;
  out_fig2 : figure;
  out_fig3 : figure;
  out_fig4 : figure
}.

Definition update_dashboard
    (sleep_range : option (list float))
    (selected_stress : option (list Z))
    (selected_activity : option (list string)) : Py outputs :=
  filtered ← filter_dataframe df sleep_range selected_stress selected_activity;
  stats ← summary_statistics filtered;
  secondary ← getitem COLORS "secondary";
  fig1 ← px "histogram" filtered
    [ ("x", PStr "Sleep Duration");
      ("nbins", PInt 25);
      ("title", PStr "Sleep Duration Distribution");
      ("labels", PDict [("Sleep Duration", PStr "Sleep Duration (hours)");
                        ("count", PStr "Number of Individuals")]);
      ("color_discrete_sequence", PList [PStr secondary]) ];
  let fig1 := update_traces fig1
    [ ("hovertemplate", PStr "Duration: %{x}h<br>Count: %{y}<extra></extra>") ] in
  let fig1 := update_layout fig1 (create_base_layout ++ [("bargap", PFloat 0.1)]) in
  fig2 ← px "scatter" filtered
    [ ("x", PStr "Sleep Duration");
      ("y", PStr "Quality of Sleep");
      ("color", PStr "Stress Level");
      ("size", PStr "Stress Level");
      ("title", PStr "Sleep Quality vs Duration by Stress Level");
      ("labels", PDict [("Sleep Duration", PStr "Sleep Duration (hours)");
                        ("Quality of Sleep", PStr "Sleep Quality (0-10)");
                        ("Stress Level", PStr "Stress Level")]);
      ("color_continuous_scale", PStr "RdYlGn_r");
      ("hover_data", PList [PStr "Physical Activity Level"]) ];
  let fig2 := update_traces fig2
    [ ("hovertemplate",
       PStr ("<b>Sleep Duration:</b> %{x}h<br>" +:+
             "<b>Sleep Quality:</b> %{y}<br>" +:+
             "<b>Stress Level:</b> %{marker.color}<extra></extra>")) ] in
  let fig2 := update_layout fig2 create_base_layout in
  fig3 ← px "box" filtered
    [ ("x", PStr "Physical Activity Level");
      ("y", PStr "Sleep Duration");
      ("color", PStr "Physical Activity Level");
      ("title", PStr "Sleep Duration by Physical Activity Level");
      ("labels", PDict [("Physical Activity Level", PStr "Activity Level");
                        ("Sleep Duration", PStr "Sleep Duration (hours)")]);
      ("points", PStr "all");
      ("color_discrete_sequence", PName "px.colors.qualitative.Set2") ];
  let fig3 := update_traces fig3
    [ ("hovertemplate",
       PStr ("<b>Activity:</b> %{x}<br>" +:+
             "<b>Sleep Duration:</b> %{y}h<extra></extra>")) ] in
  let fig3 := update_layout fig3 create_base_layout in
  fig4 ← px "density_heatmap" filtered
    [ ("x", PStr "Sleep Duration");
      ("y", PStr "Quality of Sleep");
      ("marginal_x", PStr "histogram");
      ("marginal_y", PStr "histogram");
      ("title", PStr "Sleep Duration vs Quality Density Map");
      ("labels", PDict [("Sleep Duration", PStr "Sleep Duration (hours)");
                        ("Quality of Sleep", PStr "Sleep Quality (0-10)")]);
      ("color_continuous_scale", PStr "Viridis") ];
  let fig4 := update_layout fig4 create_base_layout in
  mret (Outputs stats fig1 fig2 fig3 fig4).

(** ** The dataset loader, lines 12-14 *)

Module Loader.

Inductive cell :=
  | CInt (z : Z)
  | CFloat (f : float)
  | CStr (s : string).

(** A table as the CSV reader delivers it: the header, then the rows in
    file order, one cell per column.  The characters of a header are code
    points below 256. *)
Record Table := {
  columns : list string;
  rows : list (list cell)
}.

(** [str.isspace] on the code points below 256. *)
Definition is_space (a : ascii) : bool :=
  let n := N_of_ascii a in
  (((9 <=? n) && (n <=? 13)) || ((28 <=? n) && (n <=? 32))
   || (n =? 133) || (n =? 160))%N.

Fixpoint lstrip (s : string) : string :=
  match s with
  | EmptyString => EmptyString
  | String a s' => if is_space a then lstrip s' else s
  end.

Fixpoint rstrip (s : string) : string :=
  match s with
  | EmptyString => EmptyString
  | String a s' =>
      match rstrip s' with
      | EmptyString => if is_space a then EmptyString else String a EmptyString
      | t => String a t
      end
  end.

(** [str.strip()]. *)
Definition strip (s : string) : string := rstrip (lstrip s).

(** [df.columns = df.columns.str.strip()], line 13. *)
Definition strip_columns (t : Table) : Table :=
  {| columns := strip <$> columns t; rows := rows t |}.

(** The number of columns called [name]. *)
Definition occurrences (name : string) (cols : list string) : nat :=
  length (filter (λ c, c = name) cols).

(** A row in which the columns called [name] take the values, one value
    per column, in order. *)
Fixpoint assign_across (cols : list string) (name : string)
    (values : list cell) (r : list cell) : list cell :=
  match cols, r with
  | c :: cols', x :: r' =>
      if bool_decide (c = name) then
        match values with
        | v :: values' => v :: assign_across cols' name values' r'
        | [] => x :: assign_across cols' name [] r'
        end
      else x :: assign_across cols' name values r'
  | _, _ => []
  end.

(** [df[name] = values] for a list-like [values] with one value per row.
    When several columns are called [name], [k] of them, and there are
    exactly [k] values, pandas takes the values as one per column: the
    j-th of these columns is set to the j-th value, in every row.
    Otherwise every column called [name] is overwritten with the values,
    row by row; when there is none the column is appended. *)
Definition setitem (t : Table) (name : string) (values : list cell) : Table :=
  let k := occurrences name (columns t) in
  if bool_decide (1 < k ∧ k = length values)%nat then
    {| columns := columns t;
       rows := assign_across (columns t) name values <$> rows t |}
  else if bool_decide (name ∈ columns t) then
    {| columns := columns t;
       rows := zip_with
                 (λ r v, zip_with (λ c x, if bool_decide (c = name) then v else x)
                                  (columns t) r)
                 (rows t) values |}
  else
    {| columns := columns t ++ [name];
       rows := zip_with (λ r v, r ++ [v]) (rows t) values |}.

(** [range(1, n + 1)]. *)
Definition range_from_1 (n : nat) : list cell := CInt <$> seqZ 1 (Z.of_nat n).

Definition csv_path : string := "Sleep_health_and_lifestyle_dataset.csv".

(** Lines 12-14.  [read_csv] is the CSV reader applied to the file system
    in which the program starts: it raises or delivers the parsed table.
    No exception is caught, so one raised here ends the import of the
    module, before the server is started on line 319. *)
Definition df (read_csv : string → result Table) : result Table :=
  match read_csv csv_path with
  | Raise e => Raise e
  | Return t =>
      let t := strip_columns t in
      Return (setitem t "Sample ID" (range_from_1 (length (rows t))))
  end.

(** The same lines in the interpreter's store of table objects: the CSV
    reader allocates the table, and lines 13 and 14 assign to this object
    in place. *)
Definition load (read_csv : string → result Table) (objects : list Table)
    : result nat * list Table :=
  match read_csv csv_path with
  | Raise e => (Raise e, objects)
  | Return t =>
      let df := length objects in
      let objects := objects ++ [t] in
      let objects := alter strip_columns df objects in
      let objects :=
        alter (λ t, setitem t "Sample ID" (range_from_1 (length (rows t)))) df objects in
      (Return df, objects)
  end.

(** The cell of a row under the first column called [name]. *)
Definition cell_of (t : Table) (name : string) (r : list cell) : option cell :=
  p ← list_find (λ c, c = name) (columns t);
  r !! p.1.

(** The cells of a row under all the columns called [name]. *)
Definition cells_of (t : Table) (name : string) (r : list cell) : list cell :=
  snd <$> filter (λ cx, cx.1 = name) (zip (columns t) r).

(** The file has several columns whose trimmed header is [Sample ID], and
    as many rows as it has such columns. *)
Definition sample_ids_across (t : Table) : Prop :=
  (1 < occurrences "Sample ID" (strip <$> columns t)
   ∧ occurrences "Sample ID" (strip <$> columns t) = length (rows t))%nat.

#[global] Instance sample_ids_across_dec t : Decision (sample_ids_across t).
Proof. unfold sample_ids_across. apply _. Defined.

(** The columns that lines 181-313 read by name. *)
Definition required_columns : list string :=
  [ "Sleep Duration"; "Quality of Sleep"; "Stress Level"; "Physical Activity Level" ].

(** Every row has one cell per column. *)
Definition rectangular (t : Table) : Prop :=
  Forall (λ r, length r = length (columns t)) (rows t).

Fixpoint all_space (s : string) : bool :=
  match s with
  | EmptyString => true
  | String a s' => is_space a && all_space s'
  end.

Definition first_char (s : string) : option ascii :=
  match s with
  | EmptyString => None
  | String a _ => Some a
  end.

Fixpoint last_char (s : string) : option ascii :=
  match s with
  | EmptyString => None
  | String a EmptyString => Some a
  | String _ s' => last_char s'
  end.

(** A header with no whitespace at either end. *)
Definition trimmed (s : string) : Prop :=
  (∀ a, first_char s = Some a → is_space a = false)
  ∧ (∀ a, last_char s = Some a → is_space a = false).

(** A file that has every column the startup code reads, with blanks
    around two headers, and no [Quality of Sleep] column. *)
Definition table_without_quality : Table :=
  {| columns := [ "Person ID"; " Sleep Duration"; "Stress Level ";
                  "Physical Activity Level" ];
     rows := [ [CInt 1; CFloat 6.5; CInt 5; CStr "Low"];
               [CInt 2; CFloat 8.0; CInt 2; CStr "High"] ] |}.

(** A file with two rows and two headers that differ only by a blank, so
    that both are [Sample ID] once trimmed. *)
Definition table_with_two_id_columns : Table :=
  {| columns := [ "Sample ID"; " Sample ID"; "Sleep Duration" ];
     rows := [ [CInt 10; CInt 30; CFloat 6.5];
               [CInt 20; CInt 40; CFloat 8.0] ] |}.

End Loader.

(** ** The specification's vocabulary *)

(** A FilterState: the closed sleep range and the two selection sets. *)
Record FilterState := {
  sleep_lo : float;
  sleep_hi : float;
  stress_levels : list Z;
  activity_levels : list string
}.

(** A selection argument as the shell passes it: a list, or [None] when
    nothing was ever selected; both stand for the empty set. *)
Definition selection {A} (o : option (list A)) : list A := default [] o.

(** The specification's conjunctive filter (section 4.2): the sleep
    duration lies in the closed range, and each selection set is empty or
    contains the row's value. *)
Definition keeps (fs : FilterState) (r : row) : Prop :=
  (PrimFloat.leb (sleep_lo fs) (sleep_duration r) = true
   ∧ PrimFloat.leb (sleep_duration r) (sleep_hi fs) = true)
  ∧ (stress_levels fs = [] ∨ stress_level r ∈ stress_levels fs)
  ∧ (activity_levels fs = [] ∨ physical_activity_level r ∈ activity_levels fs).

#[global] Instance keeps_dec fs r : Decision (keeps fs r).
Proof. unfold keeps. apply _. Defined.

(** The range mask of lines 186-189, on one row. *)
Definition in_range (lo hi : float) (r : row) : Prop :=
  PyFloat.geb (sleep_duration r) lo && PyFloat.leb (sleep_duration r) hi = true.

#[global] Instance in_range_dec lo hi r : Decision (in_range lo hi r).
Proof. unfold in_range. apply _. Defined.

(** The restriction a selection set alone imposes. *)
Definition selected {A} (sel : list A) (x : A) : Prop := sel = [] ∨ x ∈ sel.

#[global] Instance selected_dec {A} `{EqDecision A} (sel : list A) x :
  Decision (selected sel x).
Proof. unfold selected. apply _. Defined.

(** The FilterState that the three arguments of a call stand for. *)
Definition filter_state (lo hi : float) (stress : option (list Z))
    (activity : option (list string)) : FilterState :=
  {| sleep_lo := lo; sleep_hi := hi;
     stress_levels := selection stress; activity_levels := selection activity |}.

(** The slider's initial value, lines 58-60: the least and the greatest
    sleep duration of the dataset. *)
Definition full_sleep_range (d : DataFrame) : list float :=
  [ series_min (column sleep_duration d); series_max (column sleep_duration d) ].

(** A computation returns a reference to a frame with rows [d], and
    leaves every frame of the store as it was. *)
Definition returns_frame (m : Py ref) (h : heap) (d : DataFrame) : Prop :=
  ∃ r h', m h = (Return r, h')
          ∧ h' !! r = Some d
          ∧ ∀ a x, h !! a = Some x → h' !! a = Some x.

(** The outcome of [filter_dataframe] as a function of the rows of the
    frame it is given: what the three stages select, or the exception of
    the subscript [sleep_range[1]] on a one-element range. *)
Definition rows_selected (sleep_range : option (list float))
    (stress : option (list Z)) (activity : option (list string))
    (d : DataFrame) : result DataFrame :=
  let selections (d : DataFrame) :=
    filter (λ r, selected (selection activity) (physical_activity_level r))
      (filter (λ r, selected (selection stress) (stress_level r)) d) in
  match sleep_range with
  | Some [_] => Raise IndexError
  | Some (lo :: hi :: _) => Return (selections (filter (in_range lo hi) d))
  | _ => Return (selections d)
  end.

(** One selection set is at least as restrictive as another: the other
    restricts nothing, or this one is a non-empty part of it. *)
Definition narrows_selection {A} (narrow wide : list A) : Prop :=
  wide = [] ∨ (narrow ≠ [] ∧ narrow ⊆ wide).

(** The text of a formatted NaN, followed by a unit. *)
Definition shows_nan (s : string) : Prop :=
  ∃ suffix, s = PyFloat.format_1f nan +:+ suffix.

(** The two-row dataset of the specification's scenarios. *)
Definition scenario_dataset : DataFrame :=
  [ Row 1 6.5 7 5 "Low" [];
    Row 2 8.0 9 2 "High" [] ].

(** The scenario's first row, followed by a row whose sleep duration is
    missing in the file (an empty cell is read as NaN). *)
Definition dataset_with_missing : DataFrame :=
  [ Row 1 6.5 7 5 "Low" [];
    Row 2 nan 9 2 "High" [] ].

(** ** Vocabulary for the further properties *)

(** [r] is the newest frame of the store and holds the rows [d]. *)
Definition at_top (h : heap) (r : ref) (d : DataFrame) : Prop :=
  S r = length h ∧ h !! r = Some d.

(** A computation only appends frames to the store, between [lo] and [hi]
    of them, and returns a reference to the newest frame, which holds the
    rows [d]. *)
Definition extends (m : Py ref) (h : heap) (d : DataFrame) (lo hi : nat) : Prop :=
  ∃ r extra, m h = (Return r, h ++ extra)
             ∧ at_top (h ++ extra) r d
             ∧ (lo ≤ length extra ≤ hi)%nat.

(** The test that one call of [filter_dataframe] applies to a row: the
    range mask when [sleep_range] has two or more elements, and the two
    selection masks. *)
Definition admits (sleep_range : option (list float))
    (stress : option (list Z)) (activity : option (list string)) (r : row) : Prop :=
  match sleep_range with
  | Some (lo :: hi :: _) => in_range lo hi r
  | _ => True
  end
  ∧ selected (selection stress) (stress_level r)
  ∧ selected (selection activity) (physical_activity_level r).

#[global] Instance admits_dec sr st ac r : Decision (admits sr st ac r).
Proof. unfold admits. destruct sr as [[|? [|? ?]]|]; apply _. Defined.

(** ** The page, lines 38-176, and the callback's wiring, lines 211-227 *)

Module Layout.

(** The exceptions the module-level code can raise once the table is
    loaded. *)
Inductive exception :=
  | ValueError
  | OverflowError
  | KeyError.

Inductive outcome (A : Type) :=
  | Done (a : A)
  | Raised (e : exception).
Arguments Done {A} a.
Arguments Raised {A} e.

#[global] Instance outcome_ret : MRet outcome := λ A a, Done a.
#[global] Instance outcome_bind : MBind outcome := λ A B f m,
  match m with
  | Done a => f a
  | Raised e => Raised e
  end.

(** [int(x)] for a float: the integer part, towards zero; [ValueError]
    for NaN and [OverflowError] for an infinity. *)
Definition py_int (x : float) : outcome Z :=
  match Prim2SF x with
  | S754_nan => Raised ValueError
  | S754_infinity _ => Raised OverflowError
  | S754_zero _ => Done 0
  | S754_finite s m e =>
      let magnitude := if 0 <=? e then Z.pos m * 2 ^ e else Z.pos m / 2 ^ (- e) in
      Done (if s then - magnitude else magnitude)
  end.

(** [str(n)] for an int, as in [f'{n}']. *)
Definition str_int (n : Z) : string :=
  (if n <? 0 then "-" else "") +:+ PyFloat.digits (Z.abs n).

(** [range(a, b, 1)]. *)
Definition py_range (a b : Z) : list Z := seqZ a (b - a).

(** [Series.unique()]: the values in order of first appearance. *)
Fixpoint unique {A} `{EqDecision A} (l : list A) : list A :=
  match l with
  | [] => []
  | x :: l' => x :: filter (λ y, y ≠ x) (unique l')
  end.

(** [sorted] on ints, and on strings, which Python orders by their code
    points.  A strongly sorted permutation is unique, so the sorting
    algorithm does not matter. *)
Definition sorted_int (l : list Z) : list Z := merge_sort Z.le l.

Definition str_le (s1 s2 : string) : Prop := String.leb s1 s2 = true.

#[global] Instance str_le_dec s1 s2 : Decision (str_le s1 s2).
Proof. unfold str_le. apply _. Defined.

Definition sorted_str (l : list string) : list string := merge_sort str_le l.

(** [d[key]] on the dict [COLORS]. *)
Definition color (key : string) : outcome string :=
  match list_find (λ kv, kv.1 = key) COLORS with
  | Some (_, (_, v)) => Done v
  | None => Raised KeyError
  end.

(** Values of component properties. *)
Inductive prop :=
  | AStr (s : string)
  | AInt (z : Z)
  | AFloat (f : float)
  | ABool (b : bool)
  | AList (l : list prop)
  | ADict (d : list (string * prop))
  | AIntDict (d : list (Z * prop)).

(** A component: its class, its keyword properties in the order written,
    and its children; a string child is a [Text]. *)
Inductive component :=
  | Text (s : string)
  | Element (kind : string) (props : list (string * prop)) (children : list component).

(** Lines 38-48. *)
Definition header : outcome component :=
  primary ← color "primary";
  mret
    (Element "dbc.Container" [("fluid", ABool true); ("className", AStr "py-4")]
       [ Element "dbc.Row" []
           [ Element "dbc.Col" []
               [ Element "html.H1"
                   [ ("className", AStr "display-4 fw-bold mb-2");
                     ("style", ADict [("color", AStr primary)]) ]
                   [ Text "Sleep & Lifestyle Analytics Dashboard" ];
                 Element "html.P"
                   [ ("className", AStr "lead text-muted mb-4") ]
                   [ Text "Interactive exploration of sleep patterns, stress levels, and physical activity" ] ] ] ]).

(** [df['Sleep Duration'].min()] and [.max()]. *)
Definition min_duration (d : DataFrame) : float := series_min (column sleep_duration d).
Definition max_duration (d : DataFrame) : float := series_max (column sleep_duration d).

(** The range slider, lines 56-66. *)
Definition sleep_slider (d : DataFrame) : outcome component :=
  first ← py_int (min_duration d);
  last ← py_int (max_duration d);
  mret
    (Element "dcc.RangeSlider"
       [ ("id", AStr "sleep-filter");
         ("min", AFloat (min_duration d));
         ("max", AFloat (max_duration d));
         ("value", AList [AFloat (min_duration d); AFloat (max_duration d)]);
         ("step", AFloat 0.5);
         ("marks",
          AIntDict
            ((λ i, (i, ADict [ ("label", AStr (str_int i +:+ "h"));
                               ("style", ADict [("fontSize", AStr "11px")]) ]))
               <$> py_range first (last + 1)));
         ("tooltip", ADict [("placement", AStr "bottom"); ("always_visible", ABool false)]) ]
       []).

(** The options of the two dropdowns, lines 74-75 and 85-86.  [sorted]
    orders the values of a column by their own order: the stress levels,
    integers, numerically; the activity levels, which a [row] holds as
    strings, by code point, and the label of such an option is the string
    itself. *)
Definition stress_options (d : DataFrame) : list prop :=
  (λ s, ADict [("label", AStr ("Level " +:+ str_int s)); ("value", AInt s)])
    <$> sorted_int (unique (column stress_level d)).

Definition activity_options (d : DataFrame) : list prop :=
  (λ a, ADict [("label", AStr a); ("value", AStr a)])
    <$> sorted_str (unique (column physical_activity_level d)).

(** Lines 51-94. *)
Definition filters (d : DataFrame) : outcome component :=
  slider ← sleep_slider d;
  mret
    (Element "dbc.Card" [("className", AStr "shadow-sm mb-4")]
       [ Element "dbc.CardBody" []
           [ Element "dbc.Row" []
               [ Element "dbc.Col" [("md", AInt 12); ("className", AStr "mb-4")]
                   [ Element "html.Label" [("className", AStr "fw-semibold mb-2")]
                       [ Text "Sleep Duration Range (hours)" ];
                     slider ] ];
             Element "dbc.Row" []
               [ Element "dbc.Col" [("md", AInt 6)]
                   [ Element "html.Label" [("className", AStr "fw-semibold mb-2")]
                       [ Text "Stress Level" ];
                     Element "dcc.Dropdown"
                       [ ("id", AStr "stress-filter");
                         ("options", AList (stress_options d));
                         ("multi", ABool true);
                         ("placeholder", AStr "All stress levels");
                         ("className", AStr "mb-2") ]
                       [] ];
                 Element "dbc.Col" [("md", AInt 6)]
                   [ Element "html.Label" [("className", AStr "fw-semibold mb-2")]
                       [ Text "Physical Activity Level" ];
                     Element "dcc.Dropdown"
                       [ ("id", AStr "activity-filter");
                         ("options", AList (activity_options d));
                         ("multi", ABool true);
                         ("placeholder", AStr "All activity levels");
                         ("className", AStr "mb-2") ]
                       [] ] ] ] ]).

(** One card of lines 97-134. *)
Definition stat_card (title id secondary : string) : component :=
  Element "dbc.Col" [("md", AInt 3)]
    [ Element "dbc.Card" [("className", AStr "shadow-sm h-100")]
        [ Element "dbc.CardBody" []
            [ Element "html.H6" [("className", AStr "text-muted mb-2")] [ Text title ];
              Element "html.H3"
                [ ("id", AStr id);
                  ("className", AStr "mb-0 fw-bold");
                  ("style", ADict [("color", AStr secondary)]) ]
                [] ] ] ].

(** Lines 97-134.  [COLORS['secondary']] is looked up once per card. *)
Definition stats_cards : outcome component :=
  c1 ← color "secondary";
  c2 ← color "secondary";
  c3 ← color "secondary";
  c4 ← color "secondary";
  mret
    (Element "dbc.Row" [("className", AStr "mb-4")]
       [ stat_card "Total Samples" "stat-total" c1;
         stat_card "Avg Sleep Duration" "stat-sleep" c2;
         stat_card "Avg Sleep Quality" "stat-quality" c3;
         stat_card "Avg Stress Level" "stat-stress" c4 ]).

(** One panel of lines 137-166. *)
Definition plot_panel (id : string) : component :=
  Element "dbc.Col" [("md", AInt 6); ("className", AStr "mb-4")]
    [ Element "dbc.Card" [("className", AStr "shadow-sm h-100")]
        [ Element "dbc.CardBody" []
            [ Element "dcc.Graph"
                [ ("id", AStr id);
                  ("config", ADict [("displayModeBar", ABool true)]) ]
                [] ] ] ].

(** Lines 137-166. *)
Definition plots : component :=
  Element "dbc.Row" []
    [ plot_panel "plot-overview";
      plot_panel "plot-stress";
      plot_panel "plot-activity";
      plot_panel "plot-comprehensive" ].

(** [app.layout], lines 171-176, with the components built in the order
    of the module: header, filters, cards, plots. *)
Definition layout (d : DataFrame) : outcome component :=
  header ← header;
  filters ← filters d;
  stats_cards ← stats_cards;
  background ← color "background";
  mret
    (Element "dbc.Container"
       [ ("fluid", ABool true);
         ("style", ADict [("backgroundColor", AStr background); ("minHeight", AStr "100vh")]) ]
       [ header; filters; stats_cards; plots ]).

(** The decorator of lines 211-227: the outputs and the inputs, each a
    component id and a property. *)
Definition callback_outputs : list (string * string) :=
  [ ("stat-total", "children");
    ("stat-sleep", "children");
    ("stat-quality", "children");
    ("stat-stress", "children");
    ("plot-overview", "figure");
    ("plot-stress", "figure");
    ("plot-activity", "figure");
    ("plot-comprehensive", "figure") ].

Definition callback_inputs : list (string * string) :=
  [ ("sleep-filter", "value");
    ("stress-filter", "value");
    ("activity-filter", "value") ].

(** Every component of a tree, the root first. *)
Fixpoint components (c : component) : list component :=
  match c with
  | Text _ => [c]
  | Element _ _ children => c :: concat (map components children)
  end.

Definition kind_of (c : component) : string :=
  match c with
  | Text _ => "str"
  | Element kind _ _ => kind
  end.

Definition props_of (c : component) : list (string * prop) :=
  match c with
  | Text _ => []
  | Element _ props _ => props
  end.

(** The value of a keyword property. *)
Definition prop_of (c : component) (name : string) : option prop :=
  (λ p, p.2.2) <$> list_find (λ kv, kv.1 = name) (props_of c).

(** The id of a component that has one. *)
Definition id_of (c : component) : option string :=
  match prop_of c "id" with
  | Some (AStr s) => Some s
  | _ => None
  end.

(** The ids of a tree, in document order. *)
Definition ids (c : component) : list string := omap id_of (components c).

(** The component class that carries each property the callback reads or
    writes. *)
Definition class_with (property : string) : list string :=
  if bool_decide (property = "children") then ["html.H3"]
  else if bool_decide (property = "figure") then ["dcc.Graph"]
  else if bool_decide (property = "value") then ["dcc.RangeSlider"; "dcc.Dropdown"]
  else [].

(** A float that is neither NaN nor an infinity. *)
Definition finite (x : float) : Prop :=
  match Prim2SF x with
  | S754_zero _ | S754_finite _ _ _ => True
  | _ => False
  end.

End Layout.

(** * Properties *)

(** ** Evaluation on the scenarios *)

Example format_1f_exact_tie : PyFloat.format_1f 7.25%float = "7.2".
Proof. vm_compute. reflexivity. Qed.

Example format_1f_samples :
  map PyFloat.format_1f
      [72.25; 0.05; 0.95; 9.95; (-7.25); (-0.01); (-0); 1e22; nan; infinity]%float
  = ["72.2"; "0.1"; "0.9"; "9.9"; "-7.2"; "-0.0"; "-0.0";
     "10000000000000000000000.0"; "nan"; "inf"].
Proof. vm_compute. reflexivity. Qed.

Example of_Z_samples :
  map PyFloat.of_Z [0; 2; -7; 9007199254740993] = [0; 2; -7; 9007199254740992]%float.
Proof. vm_compute. reflexivity. Qed.

Example filter_scenario_all :
  filter_dataframe 0%nat (Some [6.5; 8.0]%float) (Some []) (Some []) [scenario_dataset]
  = (Return 2%nat, [scenario_dataset; scenario_dataset; scenario_dataset]).
Proof. vm_compute. reflexivity. Qed.

Example filter_scenario_stress :
  filter_dataframe 0%nat (Some [6.5; 8.0]%float) (Some [2]) None [scenario_dataset]
  = (Return 3%nat, [scenario_dataset; scenario_dataset; scenario_dataset;
                    [Row 2 8.0 9 2 "High" []]]).
Proof. vm_compute. reflexivity. Qed.

Example filter_short_range :
  fst (filter_dataframe 0%nat (Some [6.5]%float) None None [scenario_dataset])
  = Raise IndexError.
Proof. vm_compute. reflexivity. Qed.

(** ** Comparisons of doubles *)

Lemma SFcompare_antisym x y : SFcompare y x = CompOpp <$> SFcompare x y.
Proof.
  destruct x as [[]|[]| |[] m1 e1], y as [[]|[]| |[] m2 e2]; simpl; try reflexivity;
    rewrite (Z.compare_antisym e1 e2); destruct (e1 ?= e2); simpl; try reflexivity;
    fold (Pos.compare m1 m2); fold (Pos.compare m2 m1);
    rewrite (Pos.compare_antisym m1 m2); destruct (m1 ?= m2)%positive; reflexivity.
Qed.

Lemma SFleb_trans x y z : SFleb x y = true → SFleb y z = true → SFleb x z = true.
Proof.
  unfold SFleb.
  destruct x as [[]|[]| |[] m1 e1], y as [[]|[]| |[] m2 e2], z as [[]|[]| |[] m3 e3];
    simpl; try (intros; congruence); try reflexivity;
    fold (Pos.compare m1 m2); fold (Pos.compare m2 m3); fold (Pos.compare m1 m3);
    destruct (Z.compare_spec e1 e2), (Z.compare_spec e2 e3), (Z.compare_spec e1 e3);
    try lia; simpl; try (intros; congruence);
    destruct (Pos.compare_spec m1 m2), (Pos.compare_spec m2 m3), (Pos.compare_spec m1 m3);
    simpl; try (intros; congruence); lia.
Qed.

Lemma SFcompare_refl x : x ≠ S754_nan → SFcompare x x = Some Eq.
Proof.
  destruct x as [[]|[]| |[] m e]; simpl; try congruence; intros _;
    rewrite Z.compare_refl; fold (Pos.compare m m); rewrite Pos.compare_refl;
    reflexivity.
Qed.

Lemma SFcompare_nan_l x y : SFcompare x y ≠ None → x ≠ S754_nan.
Proof. intros H ->. apply H. reflexivity. Qed.

Lemma SFcompare_nan_r x y : SFcompare x y ≠ None → y ≠ S754_nan.
Proof. intros H ->. apply H. destruct x; reflexivity. Qed.

Lemma SFcompare_defined x y : x ≠ S754_nan → y ≠ S754_nan → SFcompare x y ≠ None.
Proof. destruct x, y; simpl; congruence. Qed.

Lemma is_nan_false x : PrimFloat.is_nan x = false ↔ Prim2SF x ≠ S754_nan.
Proof.
  unfold PrimFloat.is_nan. rewrite FloatAxioms.eqb_spec. unfold SFeqb. split.
  - intros H E. rewrite E in H. discriminate.
  - intros H. rewrite SFcompare_refl by assumption. reflexivity.
Qed.

Lemma geb_leb x y : PyFloat.geb x y = PyFloat.leb y x.
Proof.
  unfold PyFloat.geb, PyFloat.leb.
  rewrite FloatAxioms.compare_spec, leb_spec. unfold SFleb.
  rewrite (SFcompare_antisym (Prim2SF x) (Prim2SF y)).
  destruct (SFcompare (Prim2SF x) (Prim2SF y)) as [[]|]; reflexivity.
Qed.

Lemma leb_trans x y z :
  PyFloat.leb x y = true → PyFloat.leb y z = true → PyFloat.leb x z = true.
Proof. unfold PyFloat.leb. rewrite !leb_spec. apply SFleb_trans. Qed.

Lemma leb_refl x : PrimFloat.is_nan x = false → PyFloat.leb x x = true.
Proof.
  intros H%is_nan_false. unfold PyFloat.leb. rewrite leb_spec. unfold SFleb.
  rewrite SFcompare_refl by assumption. reflexivity.
Qed.

Lemma leb_total x y :
  PrimFloat.is_nan x = false → PrimFloat.is_nan y = false →
  PyFloat.leb x y = false → PyFloat.leb y x = true.
Proof.
  intros Hx%is_nan_false Hy%is_nan_false. unfold PyFloat.leb.
  rewrite !leb_spec. unfold SFleb.
  rewrite (SFcompare_antisym (Prim2SF x) (Prim2SF y)).
  pose proof (SFcompare_defined _ _ Hx Hy) as Hd.
  destruct (SFcompare (Prim2SF x) (Prim2SF y)) as [[]|]; simpl; congruence.
Qed.

Lemma leb_not_nan x y :
  PyFloat.leb x y = true → PrimFloat.is_nan x = false ∧ PrimFloat.is_nan y = false.
Proof.
  unfold PyFloat.leb. rewrite leb_spec. unfold SFleb. intros H.
  rewrite !is_nan_false.
  split; [apply (SFcompare_nan_l _ (Prim2SF y)) | apply (SFcompare_nan_r (Prim2SF x))];
    intros E; rewrite E in H; discriminate.
Qed.

(** ** The least and the greatest value of a column *)

Lemma ltb_leb x y : PrimFloat.ltb x y = true → PyFloat.leb x y = true.
Proof.
  unfold PyFloat.leb. rewrite ltb_spec, leb_spec. unfold SFltb, SFleb.
  destruct (SFcompare (Prim2SF x) (Prim2SF y)) as [[]|]; congruence.
Qed.

Lemma ltb_false_leb x y :
  PrimFloat.is_nan x = false → PrimFloat.is_nan y = false →
  PrimFloat.ltb x y = false → PyFloat.leb y x = true.
Proof.
  intros Hx%is_nan_false Hy%is_nan_false. unfold PyFloat.leb.
  rewrite ltb_spec, leb_spec. unfold SFltb, SFleb.
  rewrite (SFcompare_antisym (Prim2SF x) (Prim2SF y)).
  pose proof (SFcompare_defined _ _ Hx Hy) as Hd.
  destruct (SFcompare (Prim2SF x) (Prim2SF y)) as [[]|]; simpl; congruence.
Qed.

Lemma fmin_spec (a b : float) :
  PrimFloat.is_nan a = false → PrimFloat.is_nan b = false →
  (fmin a b = a ∨ fmin a b = b)
  ∧ PyFloat.leb (fmin a b) a = true ∧ PyFloat.leb (fmin a b) b = true.
Proof.
  intros Ha Hb. unfold fmin. destruct (PrimFloat.ltb a b) eqn:E.
  - split; [by left|]. split; [by apply leb_refl | by apply ltb_leb].
  - split; [by right|]. split; [by apply ltb_false_leb | by apply leb_refl].
Qed.

Lemma fmax_spec (a b : float) :
  PrimFloat.is_nan a = false → PrimFloat.is_nan b = false →
  (fmax a b = a ∨ fmax a b = b)
  ∧ PyFloat.leb a (fmax a b) = true ∧ PyFloat.leb b (fmax a b) = true.
Proof.
  intros Ha Hb. unfold fmax. destruct (PrimFloat.ltb b a) eqn:E.
  - split; [by left|]. split; [by apply leb_refl | by apply ltb_leb].
  - split; [by right|]. split; [by apply ltb_false_leb | by apply leb_refl].
Qed.

Lemma foldl_fmin_lower (l : list float) (a : float) :
  PrimFloat.is_nan a = false →
  Forall (λ v, PrimFloat.is_nan v = false) l →
  foldl fmin a l ∈ a :: l
  ∧ Forall (λ v, PyFloat.leb (foldl fmin a l) v = true) (a :: l).
Proof.
  intros Ha Hl. revert a Ha. induction Hl as [|x l Hx _ IH]; intros a Ha; simpl.
  - split; [by left|]. constructor; [by apply leb_refl | constructor].
  - destruct (fmin_spec a x Ha Hx) as (Hor & H1 & H2).
    assert (PrimFloat.is_nan (fmin a x) = false) as Hm by (by destruct Hor as [-> | ->]).
    destruct (IH (fmin a x) Hm) as [Hin Hle].
    apply Forall_cons in Hle as [Hle0 Hle]. split.
    + apply elem_of_cons in Hin as [->|Hin].
      * destruct Hor as [-> | ->]; [by left | right; by left].
      * right. by right.
    + constructor; [exact (leb_trans _ _ _ Hle0 H1)|].
      constructor; [exact (leb_trans _ _ _ Hle0 H2) | exact Hle].
Qed.

Lemma foldl_fmax_upper (l : list float) (a : float) :
  PrimFloat.is_nan a = false →
  Forall (λ v, PrimFloat.is_nan v = false) l →
  foldl fmax a l ∈ a :: l
  ∧ Forall (λ v, PyFloat.leb v (foldl fmax a l) = true) (a :: l).
Proof.
  intros Ha Hl. revert a Ha. induction Hl as [|x l Hx _ IH]; intros a Ha; simpl.
  - split; [by left|]. constructor; [by apply leb_refl | constructor].
  - destruct (fmax_spec a x Ha Hx) as (Hor & H1 & H2).
    assert (PrimFloat.is_nan (fmax a x) = false) as Hm by (by destruct Hor as [-> | ->]).
    destruct (IH (fmax a x) Hm) as [Hin Hle].
    apply Forall_cons in Hle as [Hle0 Hle]. split.
    + apply elem_of_cons in Hin as [->|Hin].
      * destruct Hor as [-> | ->]; [by left | right; by left].
      * right. by right.
    + constructor; [exact (leb_trans _ _ _ H1 Hle0)|].
      constructor; [exact (leb_trans _ _ _ H2 Hle0) | exact Hle].
Qed.

(** The least value of an array without NaN is one of its values and is
    below every value. *)
Lemma fmin_lower (l : list float) :
  Forall (λ v, PrimFloat.is_nan v = false) l → l ≠ [] →
  reduce fmin l ∈ l
  ∧ Forall (λ v, PyFloat.leb (reduce fmin l) v = true) l.
Proof.
  intros Hl Hne. destruct l as [|a l]; [done|].
  apply Forall_cons in Hl as [Ha Hl]. by apply foldl_fmin_lower.
Qed.

Lemma fmax_upper (l : list float) :
  Forall (λ v, PrimFloat.is_nan v = false) l → l ≠ [] →
  reduce fmax l ∈ l
  ∧ Forall (λ v, PyFloat.leb v (reduce fmax l) = true) l.
Proof.
  intros Hl Hne. destruct l as [|a l]; [done|].
  apply Forall_cons in Hl as [Ha Hl]. by apply foldl_fmax_upper.
Qed.

Lemma fill_no_nan (c : float) (s : list float) :
  Forall (λ v, PrimFloat.is_nan v = false) s →
  map (λ v, if PrimFloat.is_nan v then c else v) s = s.
Proof.
  induction 1 as [|x l Hx _ IH]; simpl; [reflexivity|]. by rewrite Hx, IH.
Qed.

Lemma series_min_lower (s : list float) :
  Forall (λ v, PrimFloat.is_nan v = false) s →
  Forall (λ v, PyFloat.leb (series_min s) v = true) s.
Proof.
  intros Hs. destruct s as [|x s]; [constructor|].
  unfold series_min.
  replace (forallb PrimFloat.is_nan (x :: s)) with false
    by (simpl; inversion Hs as [|? ? Hx]; by rewrite Hx).
  rewrite fill_no_nan by assumption. by apply fmin_lower.
Qed.

Lemma series_max_upper (s : list float) :
  Forall (λ v, PrimFloat.is_nan v = false) s →
  Forall (λ v, PyFloat.leb v (series_max s) = true) s.
Proof.
  intros Hs. destruct s as [|x s]; [constructor|].
  unfold series_max.
  replace (forallb PrimFloat.is_nan (x :: s)) with false
    by (simpl; inversion Hs as [|? ? Hx]; by rewrite Hx).
  rewrite fill_no_nan by assumption. by apply fmax_upper.
Qed.

(** ** Boolean masks *)

Lemma boolean_index_map (p : row → bool) (d : DataFrame) :
  boolean_index d (map p d) = filter (λ r, p r = true) d.
Proof.
  induction d as [|r d IH]; [reflexivity|].
  cbn [boolean_index map]. rewrite filter_cons, IH. destruct (p r).
  - rewrite decide_True by reflexivity. reflexivity.
  - rewrite decide_False by discriminate. reflexivity.
Qed.

Lemma range_mask (lo hi : float) (d : DataFrame) :
  series_and (series_ge (column sleep_duration d) lo)
             (series_le (column sleep_duration d) hi)
  = map (λ r, PyFloat.geb (sleep_duration r) lo && PyFloat.leb (sleep_duration r) hi) d.
Proof.
  unfold series_and, series_ge, series_le, column.
  induction d as [|r d IH]; simpl; [reflexivity|]. by rewrite IH.
Qed.

Lemma isin_mask {A} `{EqDecision A} (f : row → A) (values : list A) (d : DataFrame) :
  isin (column f d) values = map (λ r, bool_decide (f r ∈ values)) d.
Proof. unfold isin, column. by rewrite map_map. Qed.

Lemma filter_selected_all (d : DataFrame) (P : row → Prop) `{∀ r, Decision (P r)} :
  (∀ r, P r) → filter P d = d.
Proof.
  intros HP. induction d as [|r d IH]; [reflexivity|].
  rewrite filter_cons, decide_True by apply HP. by rewrite IH.
Qed.

(** ** Running computations on the store *)

Lemma returns_frame_ret (r : ref) (h : heap) (d : DataFrame) :
  h !! r = Some d → returns_frame (mret r) h d.
Proof. intros H. exists r, h. auto. Qed.

Lemma returns_frame_new (h : heap) (d : DataFrame) : returns_frame (new d) h d.
Proof.
  exists (length h), (h ++ [d]). split; [reflexivity|]. split.
  - apply list_lookup_middle. reflexivity.
  - intros a x Ha. by apply lookup_app_l_Some.
Qed.

Lemma returns_frame_bind (m : Py ref) (k : ref → Py ref) (h : heap) (d d' : DataFrame) :
  returns_frame m h d →
  (∀ r h1, h1 !! r = Some d → returns_frame (k r) h1 d') →
  returns_frame (m ≫= k) h d'.
Proof.
  intros (r & h1 & Hm & Hr & Hf) Hk.
  destruct (Hk r h1 Hr) as (r' & h2 & Hk' & Hr' & Hf').
  exists r', h2. unfold mbind, Py_bind. rewrite Hm. auto.
Qed.

Lemma read_run (r : ref) (h : heap) (d : DataFrame) :
  h !! r = Some d → read r h = (Return d, h).
Proof. intros H. unfold read. by rewrite (list_lookup_total_correct _ _ _ H). Qed.

Lemma returns_frame_read (r : ref) (k : DataFrame → Py ref) (h : heap) (d d' : DataFrame) :
  h !! r = Some d → returns_frame (k d) h d' → returns_frame (read r ≫= k) h d'.
Proof.
  intros Hr (r' & h' & Hk & Hr' & Hf). exists r', h'.
  unfold mbind, Py_bind. rewrite (read_run _ _ _ Hr). auto.
Qed.

Lemma returns_frame_copy (r : ref) (h : heap) (d : DataFrame) :
  h !! r = Some d → returns_frame (copy r) h d.
Proof. intros H. apply (returns_frame_read _ _ _ d); [assumption|]. apply returns_frame_new. Qed.

(** The three stages of [filter_dataframe], each on the frame it is given. *)

Lemma range_stage (filtered : ref) (h : heap) (d : DataFrame) (lo hi : float) (tl : list float) :
  h !! filtered = Some d →
  returns_frame
    (d ← read filtered;
     lo ← subscript (Some (lo :: hi :: tl)) 0;
     hi ← subscript (Some (lo :: hi :: tl)) 1;
     new (boolean_index d
            (series_and (series_ge (column sleep_duration d) lo)
                        (series_le (column sleep_duration d) hi))))
    h (filter (in_range lo hi) d).
Proof.
  intros H. apply (returns_frame_read _ _ _ d); [assumption|].
  cbv [subscript lookup list_lookup mbind Py_bind mret Py_ret].
  rewrite range_mask, boolean_index_map.
  apply (returns_frame_new h).
Qed.

Lemma selection_stage {A} `{EqDecision A} (f : row → A) (sel : option (list A))
    (k : ref → Py ref) (filtered : ref) (h : heap) (d d' : DataFrame) :
  h !! filtered = Some d →
  (∀ r h1, h1 !! r = Some (filter (λ x, selected (selection sel) (f x)) d) →
           returns_frame (k r) h1 d') →
  returns_frame
    (c ← (if truthy sel then n ← len sel; mret (0 <? n) else mret false);
     filtered ←
       (if c : bool then
          d ← read filtered;
          values ← list_like sel;
          new (boolean_index d (isin (column f d) values))
        else mret filtered);
     k filtered)
    h d'.
Proof.
  intros Hd Hk. destruct sel as [[|v l]|].
  - apply Hk. cbn. rewrite filter_selected_all; [assumption | by left].
  - change (returns_frame
              ((d ← read filtered; new (boolean_index d (isin (column f d) (v :: l)))) ≫= k)
              h d').
    apply (returns_frame_bind _ _ _
             (filter (λ x, selected (selection (Some (v :: l))) (f x)) d));
      [|exact Hk].
    apply (returns_frame_read _ _ _ d); [assumption|].
    rewrite isin_mask, boolean_index_map.
    erewrite list_filter_iff; [apply returns_frame_new|].
    intros x. unfold selected, selection. cbn [default].
    rewrite bool_decide_eq_true. split; [auto | intros [?|?]; [discriminate | assumption]].
  - apply Hk. cbn. rewrite filter_selected_all; [assumption | by left].
Qed.

Lemma filter_Forall_id (d : DataFrame) (P : row → Prop) `{∀ r, Decision (P r)} :
  Forall P d → filter P d = d.
Proof.
  induction 1 as [|r d Hr _ IH]; [reflexivity|].
  rewrite filter_cons, decide_True by assumption. by rewrite IH.
Qed.

(** [filter_dataframe] with a range of two or more numbers: the three
    masks are applied one after the other. *)
Lemma filter_dataframe_range (h : heap) (a : ref) (d : DataFrame)
    (lo hi : float) (tl : list float) (st : option (list Z)) (ac : option (list string)) :
  h !! a = Some d →
  returns_frame (filter_dataframe a (Some (lo :: hi :: tl)) st ac) h
    (filter (λ r, selected (selection ac) (physical_activity_level r))
       (filter (λ r, selected (selection st) (stress_level r))
          (filter (in_range lo hi) d))).
Proof.
  intros Ha. unfold filter_dataframe.
  apply (returns_frame_bind _ _ _ d); [by apply returns_frame_copy|].
  intros r1 h1 H1. cbn [truthy].
  apply (returns_frame_bind _ _ _ (filter (in_range lo hi) d)); [by apply range_stage|].
  intros r2 h2 H2.
  apply (selection_stage stress_level st _ r2 h2 _ _ H2).
  intros r3 h3 H3.
  apply (selection_stage physical_activity_level ac _ r3 h3 _ _ H3).
  intros r4 h4 H4. by apply returns_frame_ret.
Qed.

(** With no range, or an empty one, the range mask is skipped. *)
Lemma filter_dataframe_norange (h : heap) (a : ref) (d : DataFrame)
    (sr : option (list float)) (st : option (list Z)) (ac : option (list string)) :
  truthy sr = false →
  h !! a = Some d →
  returns_frame (filter_dataframe a sr st ac) h
    (filter (λ r, selected (selection ac) (physical_activity_level r))
       (filter (λ r, selected (selection st) (stress_level r)) d)).
Proof.
  intros Hsr Ha. unfold filter_dataframe. rewrite Hsr.
  apply (returns_frame_bind _ _ _ d); [by apply returns_frame_copy|].
  intros r1 h1 H1.
  apply (returns_frame_bind _ _ _ d); [by apply returns_frame_ret|].
  intros r2 h2 H2.
  apply (selection_stage stress_level st _ r2 h2 _ _ H2).
  intros r3 h3 H3.
  apply (selection_stage physical_activity_level ac _ r3 h3 _ _ H3).
  intros r4 h4 H4. by apply returns_frame_ret.
Qed.

(** The conjunction of the specification is the composition of the masks. *)
Lemma filter_keeps (fs : FilterState) (d : DataFrame) :
  filter (λ r, selected (activity_levels fs) (physical_activity_level r))
    (filter (λ r, selected (stress_levels fs) (stress_level r))
       (filter (in_range (sleep_lo fs) (sleep_hi fs)) d))
  = filter (keeps fs) d.
Proof.
  rewrite !list_filter_filter. apply list_filter_iff. intros r.
  unfold keeps, selected, in_range. rewrite andb_true_iff, geb_leb.
  unfold PyFloat.leb. tauto.
Qed.

Lemma filter_dataframe_keeps (h : heap) (a : ref) (d : DataFrame)
    (lo hi : float) (tl : list float) (st : option (list Z)) (ac : option (list string)) :
  h !! a = Some d →
  returns_frame (filter_dataframe a (Some (lo :: hi :: tl)) st ac) h
    (filter (keeps (filter_state lo hi st ac)) d).
Proof.
  intros Ha. rewrite <- filter_keeps. by apply filter_dataframe_range.
Qed.

(** The same for the arguments that stand for a FilterState. *)
Lemma filter_dataframe_state (h : heap) (a : ref) (d : DataFrame)
    (fs : FilterState) (st : option (list Z)) (ac : option (list string)) :
  h !! a = Some d →
  selection st = stress_levels fs →
  selection ac = activity_levels fs →
  returns_frame (filter_dataframe a (Some [sleep_lo fs; sleep_hi fs]) st ac) h
    (filter (keeps fs) d).
Proof.
  intros Ha Hst Hac.
  pose proof (filter_dataframe_keeps h a d (sleep_lo fs) (sleep_hi fs) [] st ac Ha) as H.
  replace (filter_state (sleep_lo fs) (sleep_hi fs) st ac) with fs in H
    by (destruct fs; unfold filter_state; simpl in *; congruence).
  exact H.
Qed.

Lemma returns_frame_unique (m : Py ref) (h : heap) (d1 d2 : DataFrame) :
  returns_frame m h d1 → returns_frame m h d2 → d1 = d2.
Proof.
  intros (r1 & h1 & E1 & L1 & _) (r2 & h2 & E2 & L2 & _).
  rewrite E1 in E2. injection E2 as -> ->. congruence.
Qed.

(** ** The filter evaluator *)

(** C1.  For every dataset and every FilterState, [filter_dataframe]
    returns the rows of the dataset that satisfy the specification's
    conjunction: the sleep duration lies in the closed range, and each
    selection set is empty or contains the row's value.  The selection
    sets are passed as lists, or as [None] when empty. *)
Theorem filter_dataframe_conjunctive (h : heap) (a : ref) (d : DataFrame)
    (fs : FilterState) (st : option (list Z)) (ac : option (list string)) :
  h !! a = Some d →
  selection st = stress_levels fs →
  selection ac = activity_levels fs →
  returns_frame (filter_dataframe a (Some [sleep_lo fs; sleep_hi fs]) st ac) h
    (filter (keeps fs) d)
  ∧ ∀ r, r ∈ filter (keeps fs) d ↔ r ∈ d ∧ keeps fs r.
Proof.
  intros Ha Hst Hac. split.
  - by apply filter_dataframe_state.
  - intros r. rewrite list_elem_of_filter. tauto.
Qed.

Lemma filter_dataframe_conjunctive_witness :
  returns_frame
    (filter_dataframe 0%nat (Some [6.5; 8.0]%float) (Some [2]) None)
    [scenario_dataset]
    (filter (keeps {| sleep_lo := 6.5; sleep_hi := 8.0;
                      stress_levels := [2]; activity_levels := [] |})
            scenario_dataset).
Proof.
  apply (filter_dataframe_conjunctive [scenario_dataset] 0%nat scenario_dataset
           {| sleep_lo := 6.5; sleep_hi := 8.0;
              stress_levels := [2]; activity_levels := [] |}
           (Some [2]) None); reflexivity.
Defined.

(** C9.  With [sleep_range = None] the range mask is not applied: the
    call returns the rows that pass the two selection tests alone,
    whatever their sleep duration. *)
Theorem filter_dataframe_absent_range (h : heap) (a : ref) (d : DataFrame)
    (st : option (list Z)) (ac : option (list string)) :
  h !! a = Some d →
  returns_frame (filter_dataframe a None st ac) h
    (filter (λ r, selected (selection st) (stress_level r)
                  ∧ selected (selection ac) (physical_activity_level r)) d).
Proof.
  intros Ha.
  pose proof (filter_dataframe_norange h a d None st ac eq_refl Ha) as H.
  rewrite list_filter_filter in H.
  erewrite list_filter_iff; [exact H|]. intros r. tauto.
Qed.

Lemma filter_dataframe_absent_range_witness :
  returns_frame (filter_dataframe 0%nat None (Some [2]) None) [scenario_dataset]
    (filter (λ r, selected [2] (stress_level r)
                  ∧ selected [] (physical_activity_level r)) scenario_dataset).
Proof.
  apply (filter_dataframe_absent_range [scenario_dataset] 0%nat scenario_dataset
           (Some [2]) None).
  reflexivity.
Defined.

(** C3, as stated, fails on a dataset with a missing sleep duration: the
    least and the greatest duration skip the missing value, and the range
    mask then drops the row that has none. *)
Lemma full_range_drops_missing :
  ¬ returns_frame
      (filter_dataframe 0%nat (Some (full_sleep_range dataset_with_missing))
         (Some []) (Some []))
      [dataset_with_missing] dataset_with_missing.
Proof.
  intros H.
  assert (returns_frame
            (filter_dataframe 0%nat (Some (full_sleep_range dataset_with_missing))
               (Some []) (Some []))
            [dataset_with_missing] [Row 1 6.5 7 5 "Low" []]) as H'.
  { eexists _, _. split; [vm_compute; reflexivity|]. split; [reflexivity|].
    intros [|a] x Hx; [exact Hx | destruct a; discriminate]. }
  pose proof (returns_frame_unique _ _ _ _ H H') as E. discriminate E.
Qed.

(** C3, amended.  For every dataset in which no sleep duration is
    missing, with the sleep range set to the least and the greatest sleep
    duration of the dataset and both selection sets empty,
    [filter_dataframe] returns the full dataset. *)
Theorem filter_dataframe_identity (h : heap) (a : ref) (d : DataFrame)
    (st : option (list Z)) (ac : option (list string)) :
  Forall (λ r, PrimFloat.is_nan (sleep_duration r) = false) d →
  h !! a = Some d →
  selection st = [] →
  selection ac = [] →
  returns_frame (filter_dataframe a (Some (full_sleep_range d)) st ac) h d.
Proof.
  intros Hd Ha Hst Hac.
  pose proof (filter_dataframe_range h a d
                (series_min (column sleep_duration d))
                (series_max (column sleep_duration d)) [] st ac Ha) as H.
  rewrite Hst, Hac in H.
  rewrite !(filter_selected_all _ (λ r, selected [] _)) in H by (intros; by left).
  rewrite filter_Forall_id in H; [exact H|].
  assert (Forall (λ v, PrimFloat.is_nan v = false) (column sleep_duration d)) as Hc
    by (unfold column; by apply Forall_fmap).
  pose proof (series_min_lower _ Hc) as Hmin.
  pose proof (series_max_upper _ Hc) as Hmax.
  unfold column in Hmin, Hmax at 2. apply Forall_fmap in Hmin, Hmax.
  rewrite Forall_forall in Hmin, Hmax. apply Forall_forall. intros r Hr.
  unfold in_range. rewrite geb_leb. apply andb_true_iff.
  split; [by apply Hmin | by apply Hmax].
Qed.

Lemma filter_dataframe_identity_witness :
  returns_frame
    (filter_dataframe 0%nat (Some (full_sleep_range scenario_dataset)) (Some []) None)
    [scenario_dataset] scenario_dataset.
Proof.
  apply (filter_dataframe_identity [scenario_dataset] 0%nat scenario_dataset
           (Some []) None); try reflexivity.
  repeat constructor.
Defined.

(** C4.  For every dataset and every FilterState, [filter_dataframe]
    returns a frame whose rows are a subsequence of the dataset's: the
    rows themselves, in their original order, none repeated and none made
    up; and the dataset, like every frame that was in the store, is left
    as it was. *)
Theorem filter_dataframe_subsequence (h : heap) (a : ref) (d : DataFrame)
    (lo hi : float) (st : option (list Z)) (ac : option (list string)) :
  h !! a = Some d →
  ∃ r h' out,
    filter_dataframe a (Some [lo; hi]) st ac h = (Return r, h')
    ∧ h' !! r = Some out
    ∧ out `sublist_of` d
    ∧ (∀ x, x ∈ out → x ∈ d)
    ∧ (NoDup (sample_id <$> d) → NoDup (sample_id <$> out))
    ∧ h' !! a = Some d
    ∧ ∀ b x, h !! b = Some x → h' !! b = Some x.
Proof.
  intros Ha.
  destruct (filter_dataframe_keeps h a d lo hi [] st ac Ha) as (r & h' & Hrun & Hr & Hf).
  assert (filter (keeps (filter_state lo hi st ac)) d `sublist_of` d) as Hsub
    by apply sublist_filter.
  exists r, h', (filter (keeps (filter_state lo hi st ac)) d).
  repeat split; try assumption.
  - intros x Hx. by apply list_elem_of_filter in Hx as [_ Hx].
  - intros Hnd.
    exact (sublist_NoDup _ _ Hnd (fmap_sublist sample_id _ _ Hsub)).
  - by apply Hf.
Qed.

Lemma filter_dataframe_subsequence_witness :
  ∃ r h' out,
    filter_dataframe 0%nat (Some [6.5; 8.0]%float) (Some [2]) None [scenario_dataset]
      = (Return r, h')
    ∧ h' !! r = Some out
    ∧ out `sublist_of` scenario_dataset
    ∧ (∀ x, x ∈ out → x ∈ scenario_dataset)
    ∧ (NoDup (sample_id <$> scenario_dataset) → NoDup (sample_id <$> out))
    ∧ h' !! 0%nat = Some scenario_dataset
    ∧ ∀ b x, [scenario_dataset] !! b = Some x → h' !! b = Some x.
Proof.
  apply (filter_dataframe_subsequence [scenario_dataset] 0%nat scenario_dataset
           6.5%float 8.0%float (Some [2]) None).
  reflexivity.
Defined.

Lemma filter_implies_sublist (d : DataFrame) (P Q : row → Prop)
    `{∀ r, Decision (P r)} `{∀ r, Decision (Q r)} :
  (∀ r, P r → Q r) → filter P d `sublist_of` filter Q d.
Proof.
  intros HPQ. rewrite <- (list_filter_filter_l P Q) by exact HPQ.
  apply sublist_filter.
Qed.

Lemma narrows_selected {A} (narrow wide : list A) (x : A) :
  narrows_selection narrow wide → selected narrow x → selected wide x.
Proof.
  unfold narrows_selection, selected. intros [->|[Hne Hsub]] Hx; [by left|].
  right. destruct Hx as [->|Hx]; [done | by apply Hsub].
Qed.

(** C5, as stated, fails when a non-empty selection set is shrunk to the
    empty set: the selection [{2}] keeps one row of the scenario's
    dataset, and the empty selection, which restricts nothing, keeps
    both. *)
Lemma shrinking_to_empty_widens :
  ∃ out_narrow out_wide,
    returns_frame (filter_dataframe 0%nat (Some [6.5; 8.0]%float) (Some []) (Some []))
      [scenario_dataset] out_narrow
    ∧ returns_frame (filter_dataframe 0%nat (Some [6.5; 8.0]%float) (Some [2]) (Some []))
        [scenario_dataset] out_wide
    ∧ ([] : list Z) ⊆ [2]
    ∧ (length out_wide < length out_narrow)%nat.
Proof.
  exists scenario_dataset, [Row 2 8.0 9 2 "High" []].
  split; [|split; [|split]].
  - eexists _, _. split; [vm_compute; reflexivity|]. split; [reflexivity|].
    intros [|b] x Hx; [exact Hx | destruct b; discriminate].
  - eexists _, _. split; [vm_compute; reflexivity|]. split; [reflexivity|].
    intros [|b] x Hx; [exact Hx | destruct b; discriminate].
  - apply list_subseteq_nil.
  - simpl. lia.
Qed.

(** C5, amended.  Filtering is monotone with respect to narrowing: when
    one FilterState is obtained from another by shrinking the sleep range
    and by replacing each selection set that restricts something by a
    non-empty part of it, the narrower FilterState's rows are a
    subsequence of the wider one's, and so never more. *)
Theorem filter_dataframe_monotone (h : heap) (a : ref) (d : DataFrame)
    (lo hi lo' hi' : float)
    (st st' : option (list Z)) (ac ac' : option (list string)) :
  h !! a = Some d →
  PyFloat.leb lo lo' = true →
  PyFloat.leb hi' hi = true →
  narrows_selection (selection st') (selection st) →
  narrows_selection (selection ac') (selection ac) →
  ∃ out_narrow out_wide,
    returns_frame (filter_dataframe a (Some [lo'; hi']) st' ac') h out_narrow
    ∧ returns_frame (filter_dataframe a (Some [lo; hi]) st ac) h out_wide
    ∧ out_narrow `sublist_of` out_wide
    ∧ (length out_narrow ≤ length out_wide)%nat.
Proof.
  intros Ha Hlo Hhi Hst Hac.
  exists (filter (keeps (filter_state lo' hi' st' ac')) d),
         (filter (keeps (filter_state lo hi st ac)) d).
  assert (filter (keeps (filter_state lo' hi' st' ac')) d
            `sublist_of` filter (keeps (filter_state lo hi st ac)) d) as Hsub.
  { apply filter_implies_sublist. intros r [[H1 H2] [H3 H4]]. cbn in *.
    repeat split; cbn.
    - exact (leb_trans _ _ _ Hlo H1).
    - exact (leb_trans _ _ _ H2 Hhi).
    - exact (narrows_selected _ _ _ Hst H3).
    - exact (narrows_selected _ _ _ Hac H4). }
  split; [by apply filter_dataframe_keeps|].
  split; [by apply filter_dataframe_keeps|].
  split; [exact Hsub | by apply sublist_length].
Qed.

Lemma filter_dataframe_monotone_witness :
  ∃ out_narrow out_wide,
    returns_frame (filter_dataframe 0%nat (Some [7; 8.0]%float) (Some [2]) None)
      [scenario_dataset] out_narrow
    ∧ returns_frame (filter_dataframe 0%nat (Some [6.5; 8.0]%float) (Some [5; 2]) None)
        [scenario_dataset] out_wide
    ∧ out_narrow `sublist_of` out_wide
    ∧ (length out_narrow ≤ length out_wide)%nat.
Proof.
  apply (filter_dataframe_monotone [scenario_dataset] 0%nat scenario_dataset
           6.5%float 8.0%float 7%float 8.0%float (Some [5; 2]) (Some [2]) None None);
    try reflexivity.
  - right. split; [discriminate|]. intros x Hx. apply list_elem_of_singleton in Hx as ->.
    repeat constructor.
  - by left.
Defined.

(** C6.  Filtering is idempotent: [filter_dataframe] applied to the frame
    it returned, with the same FilterState, returns the same rows. *)
Theorem filter_dataframe_idempotent (h : heap) (a : ref) (d : DataFrame)
    (lo hi : float) (st : option (list Z)) (ac : option (list string)) :
  h !! a = Some d →
  ∃ r1 h1 out,
    filter_dataframe a (Some [lo; hi]) st ac h = (Return r1, h1)
    ∧ h1 !! r1 = Some out
    ∧ returns_frame (filter_dataframe r1 (Some [lo; hi]) st ac) h1 out.
Proof.
  intros Ha.
  destruct (filter_dataframe_keeps h a d lo hi [] st ac Ha) as (r1 & h1 & Hrun & Hr & _).
  exists r1, h1, (filter (keeps (filter_state lo hi st ac)) d).
  split; [exact Hrun|]. split; [exact Hr|].
  pose proof (filter_dataframe_keeps h1 r1 _ lo hi [] st ac Hr) as H2.
  rewrite list_filter_filter_l in H2 by auto. exact H2.
Qed.

Lemma filter_dataframe_idempotent_witness :
  ∃ r1 h1 out,
    filter_dataframe 0%nat (Some [6.5; 8.0]%float) (Some [2]) None [scenario_dataset]
      = (Return r1, h1)
    ∧ h1 !! r1 = Some out
    ∧ returns_frame (filter_dataframe r1 (Some [6.5; 8.0]%float) (Some [2]) None) h1 out.
Proof.
  apply (filter_dataframe_idempotent [scenario_dataset] 0%nat scenario_dataset
           6.5%float 8.0%float (Some [2]) None).
  reflexivity.
Defined.

(** ** The callback *)

(** A one-element range: the copy is made, then [sleep_range[1]] raises. *)
Lemma filter_dataframe_short (h : heap) (a : ref) (d : DataFrame) (x : float)
    (st : option (list Z)) (ac : option (list string)) :
  h !! a = Some d →
  filter_dataframe a (Some [x]) st ac h = (Raise IndexError, h ++ [d]).
Proof.
  intros Ha. unfold filter_dataframe, copy.
  cbv [mbind Py_bind mret Py_ret truthy subscript lookup list_lookup raise new].
  rewrite (read_run _ _ _ Ha).
  assert ((h ++ [d]) !! length h = Some d) as Hn by (apply list_lookup_middle; reflexivity).
  rewrite (read_run _ _ _ Hn). reflexivity.
Qed.

(** Every call of [filter_dataframe] on a stored frame: the outcome is
    that of [rows_selected], and the frames of the store stay as they
    were, also when the call raises. *)
Lemma filter_dataframe_outcome (h : heap) (a : ref) (d : DataFrame)
    (sr : option (list float)) (st : option (list Z)) (ac : option (list string)) :
  h !! a = Some d →
  ∃ h', (∀ b x, h !! b = Some x → h' !! b = Some x)
        ∧ match rows_selected sr st ac d with
          | Return out =>
              ∃ r, filter_dataframe a sr st ac h = (Return r, h') ∧ h' !! r = Some out
          | Raise e => filter_dataframe a sr st ac h = (Raise e, h')
          end.
Proof.
  intros Ha. destruct sr as [[|lo [|hi tl]]|]; cbn [rows_selected].
  - destruct (filter_dataframe_norange h a d (Some []) st ac eq_refl Ha)
      as (r & h' & Hrun & Hr & Hf). exists h'. eauto.
  - exists (h ++ [d]). split; [intros b x Hb; by apply lookup_app_l_Some|].
    by apply filter_dataframe_short.
  - destruct (filter_dataframe_range h a d lo hi tl st ac Ha)
      as (r & h' & Hrun & Hr & Hf). exists h'. eauto.
  - destruct (filter_dataframe_norange h a d None st ac eq_refl Ha)
      as (r & h' & Hrun & Hr & Hf). exists h'. eauto.
Qed.

Lemma COLORS_secondary : getitem COLORS "secondary" = mret "#3498DB".
Proof. vm_compute. reflexivity. Qed.

(** After the filter has returned, the callback computes the statistics
    and the first three charts, and the call for the fourth chart raises:
    a scale named by a string, and marginal plots.  The store is not
    touched again. *)
Lemma update_dashboard_after_filter (h h1 : heap) (r : ref) sr st ac :
  filter_dataframe df sr st ac h = (Return r, h1) →
  update_dashboard sr st ac h = (Raise ValueError, h1).
Proof.
  intros Hrun. unfold update_dashboard.
  unfold mbind at 1, Py_bind at 1. rewrite Hrun.
  rewrite COLORS_secondary. reflexivity.
Qed.

Lemma update_dashboard_raises (h h1 : heap) (e : exception) sr st ac :
  filter_dataframe df sr st ac h = (Raise e, h1) →
  update_dashboard sr st ac h = (Raise e, h1).
Proof.
  intros Hrun. unfold update_dashboard. unfold mbind at 1, Py_bind at 1.
  by rewrite Hrun.
Qed.

(** Every invocation of the callback raises: the exception of the filter,
    or that of the fourth chart.  The frames of the store stay as they
    were. *)
Lemma update_dashboard_outcome (h : heap) (d : DataFrame) sr st ac :
  h !! df = Some d →
  ∃ h1, (∀ b x, h !! b = Some x → h1 !! b = Some x)
        ∧ update_dashboard sr st ac h
          = (Raise match rows_selected sr st ac d with
                   | Return _ => ValueError
                   | Raise e => e
                   end, h1).
Proof.
  intros Hd.
  destruct (filter_dataframe_outcome h df d sr st ac Hd) as (h1 & Hf & Hrun).
  exists h1. split; [exact Hf|].
  destruct (rows_selected sr st ac d) as [out|e].
  - destruct Hrun as (r & Hrun & Hr). by apply (update_dashboard_after_filter h h1 r).
  - by apply update_dashboard_raises.
Qed.

(** C10.  The callback produces no outputs.  On the scenario's dataset,
    with the range [6.5, 8.0] and nothing selected, both rows pass the
    filter and the call of line 297 raises ValueError: the colour scale is
    named by a string, and its first character is taken as the colour of
    the marginal histograms.  A second invocation with equal inputs, on
    the store that the first one left, raises in the same way.  Neither
    reaches the return of line 312, so there is no count, no formatted
    mean and no chart specification to compare. *)
Theorem update_dashboard_scenario_raises :
  update_dashboard (Some [6.5; 8.0]%float) None None [scenario_dataset]
  = (Raise ValueError, [scenario_dataset; scenario_dataset; scenario_dataset])
  ∧ update_dashboard (Some [6.5; 8.0]%float) None None
      [scenario_dataset; scenario_dataset; scenario_dataset]
    = (Raise ValueError,
       [scenario_dataset; scenario_dataset; scenario_dataset;
        scenario_dataset; scenario_dataset])
  ∧ ¬ ∃ o h', update_dashboard (Some [6.5; 8.0]%float) None None [scenario_dataset]
              = (Return o, h').
Proof.
  split; [vm_compute; reflexivity|]. split; [vm_compute; reflexivity|].
  intros (o & h' & H). vm_compute in H. discriminate H.
Qed.

(** The specification's second scenario, the selection [{2}]: the filter
    keeps the second row alone, and the callback raises in the same
    place. *)
Example update_dashboard_scenario_stress :
  update_dashboard (Some [6.5; 8.0]%float) (Some [2]) (Some []) [scenario_dataset]
  = (Raise ValueError,
     [scenario_dataset; scenario_dataset; scenario_dataset; [Row 2 8.0 9 2 "High" []]]).
Proof. vm_compute. reflexivity. Qed.

(** ** The statistics *)

Lemma summary_statistics_run (h : heap) (r : ref) (out : DataFrame) :
  h !! r = Some out →
  summary_statistics r h
  = (Return
       (Statistics (Z.of_nat (length out))
          (PyFloat.format_1f (series_mean (column sleep_duration out)) +:+ "h")
          (PyFloat.format_1f (series_mean_int (column quality_of_sleep out)) +:+ "/10")
          (PyFloat.format_1f (series_mean_int (column stress_level out)) +:+ "/10")),
     h).
Proof.
  intros Hr. unfold summary_statistics, mbind, Py_bind.
  rewrite (read_run _ _ _ Hr). reflexivity.
Qed.

Lemma statistics_after_filter (h h' : heap) (a r : ref) (out : DataFrame) sr st ac :
  filter_dataframe a sr st ac h = (Return r, h') →
  h' !! r = Some out →
  (filtered ← filter_dataframe a sr st ac; summary_statistics filtered) h
  = summary_statistics r h'.
Proof. intros Hrun _. unfold mbind, Py_bind. by rewrite Hrun. Qed.

(** C2, as stated, fails: for a FilterState that no row of the scenario's
    dataset satisfies, the count is 0 and the three texts are the mean of
    no values, NaN, as formatted by [.1f]; no sentinel is put in its
    place. *)
Lemma empty_selection_shows_nan :
  ∃ stats h',
    (filtered ← filter_dataframe df (Some [0; 1]%float) (Some []) (Some []);
     summary_statistics filtered) [scenario_dataset]
    = (Return stats, h')
    ∧ stats = Statistics 0 "nanh" "nan/10" "nan/10"
    ∧ shows_nan (avg_sleep stats)
    ∧ shows_nan (avg_quality stats)
    ∧ shows_nan (avg_stress stats)
    ∧ avg_sleep stats ≠ "N/A".
Proof.
  eexists _, _. split; [vm_compute; reflexivity|].
  split; [reflexivity|]. cbn.
  split; [by exists "h"|]. split; [by exists "/10"|]. split; [by exists "/10"|].
  discriminate.
Qed.

(** C2, amended.  For every FilterState whose filtered subsequence is
    empty, lines 232-243 return, without raising, the count 0 and, for
    each of the three means, the text of a NaN: [nanh], [nan/10] and
    [nan/10]. *)
Theorem statistics_of_empty_selection (h : heap) (a : ref) (d : DataFrame)
    (fs : FilterState) (st : option (list Z)) (ac : option (list string)) :
  h !! a = Some d →
  selection st = stress_levels fs →
  selection ac = activity_levels fs →
  filter (keeps fs) d = [] →
  ∃ h',
    (filtered ← filter_dataframe a (Some [sleep_lo fs; sleep_hi fs]) st ac;
     summary_statistics filtered) h
    = (Return (Statistics 0 "nanh" "nan/10" "nan/10"), h').
Proof.
  intros Hd Hst Hac Hempty.
  destruct (filter_dataframe_state h a d fs st ac Hd Hst Hac)
    as (r & h' & Hrun & Hr & _).
  exists h'. rewrite (statistics_after_filter _ _ _ _ _ _ _ _ Hrun Hr).
  rewrite Hempty in Hr. rewrite (summary_statistics_run _ _ _ Hr).
  vm_compute. reflexivity.
Qed.

Lemma statistics_of_empty_selection_witness :
  ∃ h',
    (filtered ← filter_dataframe 0%nat (Some [0; 1]%float) (Some []) None;
     summary_statistics filtered) [scenario_dataset]
    = (Return (Statistics 0 "nanh" "nan/10" "nan/10"), h').
Proof.
  apply (statistics_of_empty_selection [scenario_dataset] 0%nat scenario_dataset
           {| sleep_lo := 0; sleep_hi := 1; stress_levels := []; activity_levels := [] |}
           (Some []) None); reflexivity.
Defined.

(** C8, as stated, fails in its last part: the mean of 6.5 and 8.0 is
    7.25, which [.1f] rounds to the even digit; the text is [7.2h]. *)
Lemma scenario_mean_is_not_7_3 :
  ¬ ∃ out stats h',
      returns_frame (filter_dataframe df (Some [6.5; 8.0]%float) (Some []) (Some []))
        [scenario_dataset] out
      ∧ (filtered ← filter_dataframe df (Some [6.5; 8.0]%float) (Some []) (Some []);
         summary_statistics filtered) [scenario_dataset]
        = (Return stats, h')
      ∧ out = scenario_dataset
      ∧ total_samples stats = 2
      ∧ (PyFloat.format_1f (series_mean (column sleep_duration out)) = "7.3"
         ∨ avg_sleep stats = "7.3"
         ∨ avg_sleep stats = "7.3h").
Proof.
  intros (out & stats & h' & _ & Hrun & -> & _ & Hmean).
  vm_compute in Hrun. injection Hrun as <- _.
  destruct Hmean as [Hmean|[Hmean|Hmean]]; vm_compute in Hmean; discriminate Hmean.
Qed.

(** C8, amended.  For the two-row dataset of the scenario and the
    FilterState with range [6.5, 8.0] and empty selections, the filtered
    frame holds both rows, the count is 2, and the mean sleep duration,
    7.25, formatted to one decimal place, is 7.2: the text is [7.2h]. *)
Theorem statistics_of_scenario (h : heap) (a : ref)
    (st : option (list Z)) (ac : option (list string)) :
  h !! a = Some scenario_dataset →
  selection st = [] →
  selection ac = [] →
  ∃ stats h',
    returns_frame (filter_dataframe a (Some [6.5; 8.0]%float) st ac) h scenario_dataset
    ∧ (filtered ← filter_dataframe a (Some [6.5; 8.0]%float) st ac;
       summary_statistics filtered) h
      = (Return stats, h')
    ∧ total_samples stats = 2
    ∧ series_mean (column sleep_duration scenario_dataset) = 7.25%float
    ∧ PyFloat.format_1f (series_mean (column sleep_duration scenario_dataset)) = "7.2"
    ∧ avg_sleep stats = "7.2h".
Proof.
  intros Hd Hst Hac.
  pose proof (filter_dataframe_state h a scenario_dataset
                {| sleep_lo := 6.5; sleep_hi := 8.0;
                   stress_levels := []; activity_levels := [] |} st ac Hd Hst Hac)
    as Hret.
  assert (filter (keeps {| sleep_lo := 6.5; sleep_hi := 8.0;
                           stress_levels := []; activity_levels := [] |})
                 scenario_dataset = scenario_dataset) as E
    by (vm_compute; reflexivity).
  rewrite E in Hret. cbn [sleep_lo sleep_hi] in Hret.
  destruct Hret as (r & h' & Hrun & Hr & Hf).
  eexists _, h'. split; [by exists r, h'|].
  rewrite (statistics_after_filter _ _ _ _ _ _ _ _ Hrun Hr).
  rewrite (summary_statistics_run _ _ _ Hr).
  split; [reflexivity|]. cbn [total_samples avg_sleep].
  split; [reflexivity|]. repeat split; vm_compute; reflexivity.
Qed.

Lemma statistics_of_scenario_witness :
  ∃ stats h',
    returns_frame (filter_dataframe 0%nat (Some [6.5; 8.0]%float) (Some []) (Some []))
      [scenario_dataset] scenario_dataset
    ∧ (filtered ← filter_dataframe 0%nat (Some [6.5; 8.0]%float) (Some []) (Some []);
       summary_statistics filtered) [scenario_dataset]
      = (Return stats, h')
    ∧ total_samples stats = 2
    ∧ series_mean (column sleep_duration scenario_dataset) = 7.25%float
    ∧ PyFloat.format_1f (series_mean (column sleep_duration scenario_dataset)) = "7.2"
    ∧ avg_sleep stats = "7.2h".
Proof.
  apply (statistics_of_scenario [scenario_dataset] 0%nat (Some []) (Some []));
    reflexivity.
Defined.

(** ** The loader *)

Example strip_samples :
  Loader.strip <$> [ " Sleep Duration"; "Stress Level  "; "  a b  "; "   "; "" ]
  = [ "Sleep Duration"; "Stress Level"; "a b"; ""; "" ].
Proof. vm_compute. reflexivity. Qed.

Example loader_scenario :
  Loader.df (λ _, Return Loader.table_without_quality)
  = Return {| Loader.columns := [ "Person ID"; "Sleep Duration"; "Stress Level";
                                  "Physical Activity Level"; "Sample ID" ];
              Loader.rows :=
                [ [Loader.CInt 1; Loader.CFloat 6.5; Loader.CInt 5; Loader.CStr "Low";
                   Loader.CInt 1];
                  [Loader.CInt 2; Loader.CFloat 8.0; Loader.CInt 2; Loader.CStr "High";
                   Loader.CInt 2] ] |}.
Proof. vm_compute. reflexivity. Qed.

Lemma lstrip_first (s : string) (a : ascii) :
  Loader.first_char (Loader.lstrip s) = Some a → Loader.is_space a = false.
Proof.
  induction s as [|b s IH]; simpl; [discriminate|].
  destruct (Loader.is_space b) eqn:E; [exact IH|].
  simpl. intros [= <-]. exact E.
Qed.

Lemma lstrip_split (s : string) :
  ∃ pre, s = pre +:+ Loader.lstrip s ∧ Loader.all_space pre = true.
Proof.
  induction s as [|b s (pre & Hs & Hpre)]; simpl.
  - by exists "".
  - destruct (Loader.is_space b) eqn:E.
    + exists (String b pre). split.
      * change (String b s = String b (pre +:+ Loader.lstrip s)). by f_equal.
      * simpl. by rewrite E, Hpre.
    + by exists "".
Qed.

Lemma rstrip_last (s : string) (a : ascii) :
  Loader.last_char (Loader.rstrip s) = Some a → Loader.is_space a = false.
Proof.
  induction s as [|b s IH]; simpl; [discriminate|].
  destruct (Loader.rstrip s) as [|c t] eqn:E.
  - destruct (Loader.is_space b) eqn:Eb; simpl; [discriminate|]. by intros [= <-].
  - exact IH.
Qed.

Lemma rstrip_split (s : string) :
  ∃ post, s = Loader.rstrip s +:+ post ∧ Loader.all_space post = true.
Proof.
  induction s as [|b s (post & Hs & Hpost)]; simpl.
  - by exists "".
  - destruct (Loader.rstrip s) as [|c t] eqn:E.
    + destruct (Loader.is_space b) eqn:Eb.
      * exists (String b post). split; [|simpl; by rewrite Eb, Hpost].
        change (String b s = String b post). f_equal. exact Hs.
      * exists post. split; [|assumption].
        change (String b s = String b ("" +:+ post)). by f_equal.
    + exists post. split; [|assumption].
      change (String b s = String b (String c t +:+ post)). by f_equal.
Qed.

Lemma rstrip_first (s : string) (a : ascii) :
  (∀ b, Loader.first_char s = Some b → Loader.is_space b = false) →
  Loader.first_char (Loader.rstrip s) = Some a → Loader.is_space a = false.
Proof.
  destruct s as [|b s]; simpl; [discriminate|]. intros Hb.
  destruct (Loader.rstrip s) as [|c t].
  - destruct (Loader.is_space b) eqn:Eb; simpl; [discriminate|]. by intros [= <-].
  - simpl. intros [= <-]. by apply Hb.
Qed.

Lemma strip_trimmed (s : string) : Loader.trimmed (Loader.strip s).
Proof.
  unfold Loader.trimmed, Loader.strip. split; intros a.
  - apply rstrip_first. intros b. apply lstrip_first.
  - apply rstrip_last.
Qed.

Lemma strip_split (s : string) :
  ∃ pre post, s = pre +:+ Loader.strip s +:+ post
              ∧ Loader.all_space pre = true ∧ Loader.all_space post = true.
Proof.
  destruct (lstrip_split s) as (pre & Hs & Hpre).
  destruct (rstrip_split (Loader.lstrip s)) as (post & Hl & Hpost).
  exists pre, post. unfold Loader.strip. by rewrite <- Hl, <- Hs.
Qed.

Lemma setitem_columns (t : Loader.Table) (name : string) (values : list Loader.cell) :
  Loader.columns (Loader.setitem t name values) = Loader.columns t
  ∨ Loader.columns (Loader.setitem t name values) = Loader.columns t ++ [name].
Proof. unfold Loader.setitem. repeat case_bool_decide; cbn; auto. Qed.

Lemma setitem_length (t : Loader.Table) (name : string) (values : list Loader.cell) :
  length values = length (Loader.rows t) →
  length (Loader.rows (Loader.setitem t name values)) = length (Loader.rows t).
Proof.
  intros Hlen. unfold Loader.setitem. repeat case_bool_decide; simpl;
    [by rewrite length_fmap | by rewrite length_zip_with_l_eq..].
Qed.

(** After [df[name] = values], when the values are taken row by row, the
    column [name] holds them. *)
Lemma setitem_cell (t : Loader.Table) (name : string) (values : list Loader.cell)
    (i : nat) (r' : list Loader.cell) :
  Loader.rectangular t →
  ¬ (1 < Loader.occurrences name (Loader.columns t)
     ∧ Loader.occurrences name (Loader.columns t) = length values)%nat →
  Loader.rows (Loader.setitem t name values) !! i = Some r' →
  ∃ v, values !! i = Some v
       ∧ Loader.cell_of (Loader.setitem t name values) name r' = Some v.
Proof.
  intros Hrect Hk. unfold Loader.setitem, Loader.cell_of.
  rewrite (bool_decide_eq_false_2 _ Hk).
  case_bool_decide as Hin; cbn [Loader.rows Loader.columns].
  - intros (r & v & -> & Hr & Hv)%lookup_zip_with_Some. exists v. split; [exact Hv|].
    destruct (list_find (λ c, c = name) (Loader.columns t)) as [[j c]|] eqn:Hfind.
    + apply list_find_Some in Hfind as (Hj & -> & _). cbn.
      rewrite lookup_zip_with, Hj. cbn.
      assert (length r = length (Loader.columns t)) as Hlen.
      { unfold Loader.rectangular in Hrect. rewrite Forall_forall in Hrect.
        apply Hrect. by eapply list_elem_of_lookup_2. }
      destruct (r !! j) as [x|] eqn:Hx.
      * cbn. by rewrite bool_decide_eq_true_2.
      * apply lookup_ge_None in Hx. apply lookup_lt_Some in Hj. lia.
    + apply list_find_None in Hfind. rewrite Forall_forall in Hfind.
      by destruct (Hfind name Hin).
  - intros (r & v & -> & Hr & Hv)%lookup_zip_with_Some. exists v. split; [exact Hv|].
    assert (length r = length (Loader.columns t)) as Hlen.
    { unfold Loader.rectangular in Hrect. rewrite Forall_forall in Hrect.
      apply Hrect. by eapply list_elem_of_lookup_2. }
    assert (list_find (λ c, c = name) (Loader.columns t ++ [name])
            = Some (length (Loader.columns t), name)) as ->.
    { apply list_find_Some. split; [by apply list_lookup_middle|]. split; [done|].
      intros j y Hj Hlt ->. apply Hin.
      rewrite lookup_app_l in Hj by exact Hlt. by eapply list_elem_of_lookup_2. }
    cbn. rewrite <- Hlen. by apply list_lookup_middle.
Qed.



(** The loader in the store: one table object is allocated, it is the one
    returned, and every other object stays as it was; when the reader
    raises, the store is as before. *)
Lemma load_df (read_csv : string → result Loader.Table) (objects : list Loader.Table) :
  Loader.load read_csv objects
  = match Loader.df read_csv with
    | Return t' => (Return (length objects), objects ++ [t'])
    | Raise e => (Raise e, objects)
    end.
Proof.
  unfold Loader.load, Loader.df.
  destruct (read_csv Loader.csv_path) as [t|e]; [|reflexivity].
  rewrite !alter_app_r_alt by reflexivity. rewrite Nat.sub_diag. reflexivity.
Qed.

(** C7, as stated, fails, twice.  A readable file that lacks the column
    [Quality of Sleep], which lines 242, 261 and 300 read, is loaded
    without any exception.  And for a file of two rows with two headers
    that are both [Sample ID] once trimmed, the identifiers are set across
    these columns: the second row holds 1 and 2, as the first, and its
    identifier is not 2. *)
Lemma loader_not_as_claimed :
  (∃ t, Loader.df (λ _, Return Loader.table_without_quality) = Return t
        ∧ "Quality of Sleep" ∈ Loader.required_columns
        ∧ "Quality of Sleep" ∉ Loader.columns t)
  ∧ (∃ t r, Loader.df (λ _, Return Loader.table_with_two_id_columns) = Return t
            ∧ Loader.rows t !! 1%nat = Some r
            ∧ Loader.cell_of t "Sample ID" r = Some (Loader.CInt 1)
            ∧ Loader.cells_of t "Sample ID" r = [Loader.CInt 1; Loader.CInt 2]
            ∧ Loader.cell_of t "Sample ID" r ≠ Some (Loader.CInt 2)).
Proof.
  split.
  - eexists. split; [vm_compute; reflexivity|]. split.
    + unfold Loader.required_columns. repeat constructor.
    + cbn. intros H.
      repeat (apply elem_of_cons in H as [H|H]; [discriminate H|]).
      by apply elem_of_nil in H.
  - eexists _, _. split; [vm_compute; reflexivity|].
    split; [reflexivity|]. split; [vm_compute; reflexivity|].
    split; [vm_compute; reflexivity|]. vm_compute. discriminate.
Qed.

(** C7, amended.  The loader raises exactly when the CSV reader raises
    (the file is missing or cannot be read or parsed), and then with the
    reader's exception; it does not look for any column.  Otherwise it
    returns the table with every header trimmed of whitespace at both
    ends, the rows in file order, and, unless the identifiers go across
    several columns called [Sample ID], the column [Sample ID] holding
    1, 2, 3, ... down the rows.  In the store the loader creates this one
    table and changes no other object; and the table is immutable in use:
    no call of the callback or of the filter changes the frame that [df]
    names. *)
Theorem loader_outcome (read_csv : string → result Loader.Table) :
  (∀ e, Loader.df read_csv = Raise e ↔ read_csv Loader.csv_path = Raise e)
  ∧ (∀ t, read_csv Loader.csv_path = Return t →
      ∃ t', Loader.df read_csv = Return t'
        ∧ Forall Loader.trimmed (Loader.columns t')
        ∧ (Loader.columns t' = Loader.strip <$> Loader.columns t
           ∨ Loader.columns t' = (Loader.strip <$> Loader.columns t) ++ ["Sample ID"])
        ∧ length (Loader.rows t') = length (Loader.rows t)
        ∧ (Loader.rectangular t → ¬ Loader.sample_ids_across t →
           ∀ i r', Loader.rows t' !! i = Some r' →
                   Loader.cell_of t' "Sample ID" r' = Some (Loader.CInt (Z.of_nat i + 1))))
  ∧ (∀ objects : list Loader.Table,
       Loader.load read_csv objects
       = match Loader.df read_csv with
         | Return t' => (Return (length objects), objects ++ [t'])
         | Raise e => (Raise e, objects)
         end)
  ∧ (∀ (h : heap) (d : DataFrame) sr st ac,
       h !! df = Some d →
       (update_dashboard sr st ac h).2 !! df = Some d
       ∧ (filter_dataframe df sr st ac h).2 !! df = Some d).
Proof.
  split; [|split; [|split]].
  - unfold Loader.df. intros e.
    destruct (read_csv Loader.csv_path) as [t|e']; [split; discriminate|].
    split; intros [= ->]; reflexivity.
  - unfold Loader.df. intros t ->. eexists. split; [reflexivity|].
    set (t1 := Loader.strip_columns t).
    set (ids := Loader.range_from_1 (length (Loader.rows t1))).
    assert (length ids = length (Loader.rows t1)) as Hids.
    { unfold ids, Loader.range_from_1. rewrite length_fmap, length_seqZ. lia. }
    pose proof (setitem_columns t1 "Sample ID" ids) as Hcols.
    split; [|split; [exact Hcols|split]].
    + assert (Forall Loader.trimmed (Loader.columns t1)) as Ht1.
      { cbn. apply Forall_fmap, Forall_forall. intros s _. apply strip_trimmed. }
      destruct Hcols as [->| ->]; [exact Ht1|].
      apply Forall_app. split; [exact Ht1|]. constructor; [|constructor].
      split; intros a [= <-]; reflexivity.
    + by rewrite setitem_length.
    + intros Hrect Hacross i r' Hr'.
      assert (Loader.rectangular t1) as Hrect1.
      { unfold Loader.rectangular in *. cbn. by rewrite length_fmap. }
      assert (¬ (1 < Loader.occurrences "Sample ID" (Loader.columns t1)
                 ∧ Loader.occurrences "Sample ID" (Loader.columns t1) = length ids)%nat)
        as Hk by (rewrite Hids; exact Hacross).
      destruct (setitem_cell t1 "Sample ID" ids i r' Hrect1 Hk Hr') as (v & Hv & Hcell).
      rewrite Hcell. f_equal. unfold ids, Loader.range_from_1 in Hv.
      rewrite list_lookup_fmap in Hv.
      destruct (seqZ 1 _ !! i) as [z|] eqn:Hz; [|discriminate].
      apply lookup_seqZ in Hz as [-> _]. cbn in Hv. injection Hv as <-. f_equal. lia.
  - apply load_df.
  - intros h d sr st ac Hd. split.
    + destruct (update_dashboard_outcome h d sr st ac Hd) as (h1 & Hkeep & ->).
      by apply Hkeep.
    + destruct (filter_dataframe_outcome h df d sr st ac Hd) as (h1 & Hkeep & Hrun).
      destruct (rows_selected sr st ac d) as [out|e].
      * destruct Hrun as (r & -> & _). by apply Hkeep.
      * rewrite Hrun. by apply Hkeep.
Qed.

Lemma loader_outcome_witness :
  ∃ t', Loader.df (λ _, Return Loader.table_without_quality) = Return t'
        ∧ Forall Loader.trimmed (Loader.columns t')
        ∧ (Loader.columns t' = Loader.strip <$> Loader.columns Loader.table_without_quality
           ∨ Loader.columns t'
             = (Loader.strip <$> Loader.columns Loader.table_without_quality)
               ++ ["Sample ID"])
        ∧ length (Loader.rows t') = length (Loader.rows Loader.table_without_quality)
        ∧ (∀ i r', Loader.rows t' !! i = Some r' →
                   Loader.cell_of t' "Sample ID" r' = Some (Loader.CInt (Z.of_nat i + 1))).
Proof.
  destruct (proj1 (proj2 (loader_outcome (λ _, Return Loader.table_without_quality)))
              Loader.table_without_quality eq_refl)
    as (t' & Hload & Htrim & Hcols & Hrows & Hids).
  exists t'. split; [exact Hload|]. split; [exact Htrim|]. split; [exact Hcols|].
  split; [exact Hrows|]. apply Hids.
  - repeat constructor.
  - intros [H _]. vm_compute in H. lia.
Defined.

(** * Further properties *)

(** ** [filter_dataframe]: exceptions, allocation, algebra *)

Lemma extends_ret (r : ref) (h : heap) (d : DataFrame) :
  at_top h r d → extends (mret r) h d 0 0.
Proof.
  intros Ht. exists r, []. rewrite app_nil_r. split; [reflexivity|].
  split; [exact Ht | simpl; lia].
Qed.

Lemma extends_new (h : heap) (d : DataFrame) : extends (new d) h d 1 1.
Proof.
  exists (length h), [d]. split; [reflexivity|]. split; [|simpl; lia].
  split; [rewrite length_app; simpl; lia | by apply list_lookup_middle].
Qed.

Lemma extends_bind (m : Py ref) (k : ref → Py ref) (h : heap) (d d' : DataFrame)
    (l1 u1 l2 u2 : nat) :
  extends m h d l1 u1 →
  (∀ r h1, at_top h1 r d → extends (k r) h1 d' l2 u2) →
  extends (m ≫= k) h d' (l1 + l2) (u1 + u2).
Proof.
  intros (r & e1 & Hm & Ht & Hn) Hk.
  destruct (Hk r (h ++ e1) Ht) as (r' & e2 & Hk' & Ht' & Hn').
  exists r', (e1 ++ e2). unfold mbind, Py_bind. rewrite Hm, Hk', app_assoc.
  split; [reflexivity|]. split; [exact Ht'|]. rewrite length_app. lia.
Qed.

Lemma extends_weaken (m : Py ref) (h : heap) (d : DataFrame) (l u l' u' : nat) :
  (l' ≤ l)%nat → (u ≤ u')%nat → extends m h d l u → extends m h d l' u'.
Proof.
  intros Hl Hu (r & e & Hm & Ht & Hn). exists r, e.
  split; [exact Hm|]. split; [exact Ht|]. lia.
Qed.

Lemma extends_read (r : ref) (k : DataFrame → Py ref) (h : heap) (d d' : DataFrame)
    (l u : nat) :
  h !! r = Some d → extends (k d) h d' l u → extends (read r ≫= k) h d' l u.
Proof.
  intros Hr (r' & e & Hk & Ht & Hn). exists r', e.
  unfold mbind, Py_bind. rewrite (read_run _ _ _ Hr). auto.
Qed.

Lemma extends_selection_stage {A} `{EqDecision A} (f : row → A) (sel : option (list A))
    (k : ref → Py ref) (filtered : ref) (h : heap) (d d' : DataFrame) (l u : nat) :
  at_top h filtered d →
  (∀ r h1, at_top h1 r (filter (λ x, selected (selection sel) (f x)) d) →
           extends (k r) h1 d' l u) →
  extends
    (c ← (if truthy sel then n ← len sel; mret (0 <? n) else mret false);
     filtered ←
       (if c : bool then
          d ← read filtered;
          values ← list_like sel;
          new (boolean_index d (isin (column f d) values))
        else mret filtered);
     k filtered)
    h d' l (S u).
Proof.
  intros Hd Hk.
  assert (∀ r h1, at_top h1 r d →
                  selection sel = [] → extends (k r) h1 d' l (S u)) as Hskip.
  { intros r h1 Ht Hsel. apply (extends_weaken _ _ _ l u); [lia | lia|].
    apply Hk. rewrite Hsel. rewrite filter_selected_all; [exact Ht | by left]. }
  destruct sel as [[|v vs]|].
  - by apply Hskip.
  - change (extends
              ((d ← read filtered; new (boolean_index d (isin (column f d) (v :: vs)))) ≫= k)
              h d' l (S u)).
    apply (extends_weaken _ _ _ (1 + l) (1 + u)); [lia | lia|].
    apply (extends_bind _ _ _
             (filter (λ x, selected (selection (Some (v :: vs))) (f x)) d));
      [|exact Hk].
    apply (extends_read _ _ _ d); [apply Hd|].
    rewrite isin_mask, boolean_index_map.
    erewrite list_filter_iff; [apply extends_new|].
    intros x. unfold selected, selection. cbn [default].
    rewrite bool_decide_eq_true. split; [auto | intros [?|?]; [discriminate | assumption]].
  - by apply Hskip.
Qed.

(** Every call that does not raise appends between one and four frames
    and returns the newest one. *)
Lemma filter_dataframe_extends (h : heap) (a : ref) (d out : DataFrame)
    (sr : option (list float)) (st : option (list Z)) (ac : option (list string)) :
  h !! a = Some d →
  rows_selected sr st ac d = Return out →
  extends (filter_dataframe a sr st ac) h out 1 4.
Proof.
  intros Ha Hout. unfold filter_dataframe.
  assert (extends (copy a) h d 1 1) as Hcopy
    by (apply (extends_read _ _ _ d); [exact Ha | apply extends_new]).
  assert (∀ d1 r h1, at_top h1 r d1 →
            extends
              (c ← (if truthy st then n ← len st; mret (0 <? n) else mret false);
               filtered ←
                 (if c : bool then
                    d ← read r;
                    values ← list_like st;
                    new (boolean_index d (isin (column stress_level d) values))
                  else mret r);
               c ← (if truthy ac then n ← len ac; mret (0 <? n) else mret false);
               filtered ←
                 (if c : bool then
                    d ← read filtered;
                    values ← list_like ac;
                    new (boolean_index d
                           (isin (column physical_activity_level d) values))
                  else mret filtered);
               mret filtered)
              h1
              (filter (λ r, selected (selection ac) (physical_activity_level r))
                 (filter (λ r, selected (selection st) (stress_level r)) d1))
              0 2) as Hsel.
  { intros d1 r h1 Ht.
    apply (extends_selection_stage stress_level st _ r h1 _ _ 0 1 Ht).
    intros r3 h3 H3.
    apply (extends_selection_stage physical_activity_level ac _ r3 h3 _ _ 0 0 H3).
    intros r4 h4 H4. by apply extends_ret. }
  destruct sr as [[|lo [|hi tl]]|]; cbn [rows_selected] in Hout;
    try discriminate Hout; injection Hout as <-; cbn [truthy].
  - apply (extends_weaken _ _ _ (1 + (0 + 0)) (1 + (0 + 2))); [lia | lia|].
    apply (extends_bind _ _ _ d); [exact Hcopy|]. intros r1 h1 H1.
    apply (extends_bind _ _ _ d); [by apply extends_ret|]. apply Hsel.
  - apply (extends_weaken _ _ _ (1 + (1 + 0)) (1 + (1 + 2))); [lia | lia|].
    apply (extends_bind _ _ _ d); [exact Hcopy|]. intros r1 h1 H1.
    apply (extends_bind _ _ _ (filter (in_range lo hi) d)); [|apply Hsel].
    apply (extends_read _ _ _ d); [apply H1|].
    cbv [subscript lookup list_lookup mbind Py_bind mret Py_ret].
    rewrite range_mask, boolean_index_map. apply extends_new.
  - apply (extends_weaken _ _ _ (1 + (0 + 0)) (1 + (0 + 2))); [lia | lia|].
    apply (extends_bind _ _ _ d); [exact Hcopy|]. intros r1 h1 H1.
    apply (extends_bind _ _ _ d); [by apply extends_ret|]. apply Hsel.
Qed.

Lemma rows_selected_admits (sr : option (list float)) (st : option (list Z))
    (ac : option (list string)) (d : DataFrame) :
  (∀ x, sr ≠ Some [x]) →
  rows_selected sr st ac d = Return (filter (admits sr st ac) d).
Proof.
  intros Hsr. unfold rows_selected, admits.
  destruct sr as [[|lo [|hi tl]]|]; try (by destruct (Hsr lo));
    rewrite !list_filter_filter; f_equal; apply list_filter_iff; intros r; tauto.
Qed.

Lemma filter_dataframe_rows (h : heap) (a : ref) (d out : DataFrame)
    (sr : option (list float)) (st : option (list Z)) (ac : option (list string)) :
  h !! a = Some d →
  rows_selected sr st ac d = Return out →
  returns_frame (filter_dataframe a sr st ac) h out.
Proof.
  intros Ha Hout.
  destruct (filter_dataframe_extends h a d out sr st ac Ha Hout)
    as (r & extra & Hrun & [_ Hr] & _).
  exists r, (h ++ extra). split; [exact Hrun|]. split; [exact Hr|].
  intros b x Hb. by apply lookup_app_l_Some.
Qed.

Lemma filter_dataframe_admits (h : heap) (a : ref) (d : DataFrame)
    (sr : option (list float)) (st : option (list Z)) (ac : option (list string)) :
  h !! a = Some d →
  (∀ x, sr ≠ Some [x]) →
  returns_frame (filter_dataframe a sr st ac) h (filter (admits sr st ac) d).
Proof.
  intros Ha Hsr. apply (filter_dataframe_rows h a d); [exact Ha|].
  by apply rows_selected_admits.
Qed.

(** X1.  [filter_dataframe] raises exactly when [sleep_range] is a list of
    one element: the subscript [sleep_range[1]] then raises [IndexError],
    after the copy of the frame has been made, and no frame of the store
    is changed.  For every other argument, [None] and the empty list
    included, it returns. *)
Theorem filter_dataframe_raises_iff (h : heap) (a : ref) (d : DataFrame)
    (sr : option (list float)) (st : option (list Z)) (ac : option (list string)) :
  h !! a = Some d →
  ((∃ e, (filter_dataframe a sr st ac h).1 = Raise e) ↔ ∃ x, sr = Some [x])
  ∧ (∀ e, (filter_dataframe a sr st ac h).1 = Raise e →
          e = IndexError ∧ (filter_dataframe a sr st ac h).2 = h ++ [d]).
Proof.
  intros Ha.
  assert ((∃ x, sr = Some [x]) ∨ (∀ x, sr ≠ Some [x])) as [[x ->]|Hsr].
  { destruct sr as [[|lo [|hi tl]]|]; try (right; intros x; discriminate).
    left. by exists lo. }
  - rewrite (filter_dataframe_short h a d x st ac Ha). cbn. split.
    + split; [by exists x | by exists IndexError].
    + by intros e [= <-].
  - destruct (filter_dataframe_admits h a d sr st ac Ha Hsr) as (r & h' & Hrun & _).
    rewrite Hrun. cbn. split.
    + split; [intros [e He]; discriminate | intros [x ->]; by destruct (Hsr x)].
    + intros e He. discriminate.
Qed.

Lemma filter_dataframe_raises_iff_witness :
  IndexError = IndexError
  ∧ (filter_dataframe 0%nat (Some [6.5]%float) None None [scenario_dataset]).2
    = [scenario_dataset] ++ [scenario_dataset].
Proof.
  apply (filter_dataframe_raises_iff [scenario_dataset] 0%nat scenario_dataset
           (Some [6.5]%float) None None); reflexivity.
Defined.

(** X2.  A call that does not raise returns a frame that did not exist
    before: it appends between one and four frames to the store and
    returns the newest one, so the result is never the frame it was
    given, also when no filter is active. *)
Theorem filter_dataframe_fresh (h : heap) (a : ref) (d : DataFrame)
    (sr : option (list float)) (st : option (list Z)) (ac : option (list string)) :
  h !! a = Some d →
  (∀ x, sr ≠ Some [x]) →
  ∃ r extra,
    filter_dataframe a sr st ac h = (Return r, h ++ extra)
    ∧ (1 ≤ length extra ≤ 4)%nat
    ∧ S r = length (h ++ extra)
    ∧ h !! r = None
    ∧ r ≠ a.
Proof.
  intros Ha Hsr.
  destruct (filter_dataframe_extends h a d _ sr st ac Ha
              (rows_selected_admits sr st ac d Hsr))
    as (r & extra & Hrun & [Htop Hr] & Hn).
  exists r, extra. split; [exact Hrun|]. split; [exact Hn|]. split; [exact Htop|].
  rewrite length_app in Htop.
  assert (h !! r = None) as Hnone by (apply lookup_ge_None; lia).
  split; [exact Hnone|]. intros ->. congruence.
Qed.

Lemma filter_dataframe_fresh_witness :
  ∃ r extra,
    filter_dataframe 0%nat None None None [scenario_dataset]
    = (Return r, [scenario_dataset] ++ extra)
    ∧ (1 ≤ length extra ≤ 4)%nat
    ∧ S r = length ([scenario_dataset] ++ extra)
    ∧ [scenario_dataset] !! r = None
    ∧ r ≠ 0%nat.
Proof.
  apply (filter_dataframe_fresh [scenario_dataset] 0%nat scenario_dataset None None None).
  - reflexivity.
  - intros x. discriminate.
Defined.

Lemma selected_same_elements {A} (s s' : list A) (v : A) :
  (∀ x, x ∈ s ↔ x ∈ s') → selected s v ↔ selected s' v.
Proof.
  intros Hs. unfold selected.
  assert (s = [] ↔ s' = []) as Hnil.
  { split; intros ->.
    - destruct s' as [|y ?]; [done|]. exfalso.
      apply (not_elem_of_nil y), Hs. by left.
    - destruct s as [|y ?]; [done|]. exfalso.
      apply (not_elem_of_nil y), Hs. by left. }
  rewrite Hnil, (Hs v). reflexivity.
Qed.

(** X3.  A selection matters only as a set: two calls whose selection
    lists have the same elements, in any order and with any repetitions,
    return the same rows. *)
Theorem filter_dataframe_selection_as_set (h : heap) (a : ref) (d : DataFrame)
    (sr : option (list float)) (st st' : option (list Z))
    (ac ac' : option (list string)) :
  h !! a = Some d →
  (∀ x, sr ≠ Some [x]) →
  (∀ v, v ∈ selection st ↔ v ∈ selection st') →
  (∀ v, v ∈ selection ac ↔ v ∈ selection ac') →
  ∃ out,
    returns_frame (filter_dataframe a sr st ac) h out
    ∧ returns_frame (filter_dataframe a sr st' ac') h out.
Proof.
  intros Ha Hsr Hst Hac. exists (filter (admits sr st ac) d).
  split; [by apply filter_dataframe_admits|].
  erewrite list_filter_iff; [by apply filter_dataframe_admits|].
  intros r. unfold admits.
  rewrite (selected_same_elements _ _ _ Hst), (selected_same_elements _ _ _ Hac).
  reflexivity.
Qed.

Lemma filter_dataframe_selection_as_set_witness :
  ∃ out,
    returns_frame
      (filter_dataframe 0%nat (Some [6.5; 8]%float) (Some [2; 5]) None)
      [scenario_dataset] out
    ∧ returns_frame
        (filter_dataframe 0%nat (Some [6.5; 8]%float) (Some [5; 2; 5]) (Some []))
        [scenario_dataset] out.
Proof.
  apply (filter_dataframe_selection_as_set [scenario_dataset] 0%nat scenario_dataset
           (Some [6.5; 8]%float) (Some [2; 5]) (Some [5; 2; 5]) None (Some [])).
  - reflexivity.
  - intros x. discriminate.
  - intros v. cbn. rewrite !elem_of_cons, !elem_of_nil. tauto.
  - intros v. cbn. reflexivity.
Defined.

(** X4.  Calls compose and commute: filtering the frame returned for one
    set of arguments with a second set returns the rows of the dataset
    that pass both tests, whichever of the two calls is made first. *)
Theorem filter_dataframe_commutes (h : heap) (a : ref) (d : DataFrame)
    (sr1 sr2 : option (list float)) (st1 st2 : option (list Z))
    (ac1 ac2 : option (list string)) :
  h !! a = Some d →
  (∀ x, sr1 ≠ Some [x]) →
  (∀ x, sr2 ≠ Some [x]) →
  ∃ r1 h1 r2 h2,
    filter_dataframe a sr1 st1 ac1 h = (Return r1, h1)
    ∧ filter_dataframe a sr2 st2 ac2 h = (Return r2, h2)
    ∧ returns_frame (filter_dataframe r1 sr2 st2 ac2) h1
        (filter (λ r, admits sr1 st1 ac1 r ∧ admits sr2 st2 ac2 r) d)
    ∧ returns_frame (filter_dataframe r2 sr1 st1 ac1) h2
        (filter (λ r, admits sr1 st1 ac1 r ∧ admits sr2 st2 ac2 r) d).
Proof.
  intros Ha H1 H2.
  destruct (filter_dataframe_admits h a d sr1 st1 ac1 Ha H1) as (r1 & h1 & E1 & L1 & _).
  destruct (filter_dataframe_admits h a d sr2 st2 ac2 Ha H2) as (r2 & h2 & E2 & L2 & _).
  exists r1, h1, r2, h2. split; [exact E1|]. split; [exact E2|]. split.
  - pose proof (filter_dataframe_admits h1 r1 _ sr2 st2 ac2 L1 H2) as H.
    rewrite list_filter_filter in H.
    erewrite list_filter_iff; [exact H|]. intros r. tauto.
  - pose proof (filter_dataframe_admits h2 r2 _ sr1 st1 ac1 L2 H1) as H.
    rewrite list_filter_filter in H. exact H.
Qed.

Lemma filter_dataframe_commutes_witness :
  ∃ r1 h1 r2 h2,
    filter_dataframe 0%nat (Some [7; 9]%float) None None [scenario_dataset]
    = (Return r1, h1)
    ∧ filter_dataframe 0%nat None (Some [2; 5]) None [scenario_dataset]
      = (Return r2, h2)
    ∧ returns_frame (filter_dataframe r1 None (Some [2; 5]) None) h1
        (filter (λ r, admits (Some [7; 9]%float) None None r
                      ∧ admits None (Some [2; 5]) None r) scenario_dataset)
    ∧ returns_frame (filter_dataframe r2 (Some [7; 9]%float) None None) h2
        (filter (λ r, admits (Some [7; 9]%float) None None r
                      ∧ admits None (Some [2; 5]) None r) scenario_dataset).
Proof.
  apply (filter_dataframe_commutes [scenario_dataset] 0%nat scenario_dataset
           (Some [7; 9]%float) None None (Some [2; 5]) None None).
  - reflexivity.
  - intros x. discriminate.
  - intros x. discriminate.
Defined.

(** X5.  A multi-selection acts as a disjunction: the rows returned for
    the stress levels of two non-empty lists put together are the rows
    returned for the one list or for the other. *)
Theorem filter_dataframe_selection_union (h : heap) (a : ref) (d : DataFrame)
    (sr : option (list float)) (s1 s2 : list Z) (ac : option (list string)) :
  h !! a = Some d →
  (∀ x, sr ≠ Some [x]) →
  s1 ≠ [] →
  s2 ≠ [] →
  ∃ out1 out2 out,
    returns_frame (filter_dataframe a sr (Some s1) ac) h out1
    ∧ returns_frame (filter_dataframe a sr (Some s2) ac) h out2
    ∧ returns_frame (filter_dataframe a sr (Some (s1 ++ s2)) ac) h out
    ∧ ∀ r, r ∈ out ↔ r ∈ out1 ∨ r ∈ out2.
Proof.
  intros Ha Hsr H1 H2.
  exists (filter (admits sr (Some s1) ac) d), (filter (admits sr (Some s2) ac) d),
         (filter (admits sr (Some (s1 ++ s2)) ac) d).
  split; [by apply filter_dataframe_admits|].
  split; [by apply filter_dataframe_admits|].
  split; [by apply filter_dataframe_admits|].
  intros r. rewrite !list_elem_of_filter. unfold admits, selected, selection. simpl.
  rewrite elem_of_app.
  assert (s1 ++ s2 ≠ []) as H12 by (destruct s1; [done | discriminate]).
  tauto.
Qed.

Lemma filter_dataframe_selection_union_witness :
  ∃ out1 out2 out,
    returns_frame (filter_dataframe 0%nat None (Some [2]) None) [scenario_dataset] out1
    ∧ returns_frame (filter_dataframe 0%nat None (Some [5]) None) [scenario_dataset] out2
    ∧ returns_frame (filter_dataframe 0%nat None (Some ([2] ++ [5])) None)
        [scenario_dataset] out
    ∧ ∀ r, r ∈ out ↔ r ∈ out1 ∨ r ∈ out2.
Proof.
  apply (filter_dataframe_selection_union [scenario_dataset] 0%nat scenario_dataset
           None [2] [5] None).
  - reflexivity.
  - intros x. discriminate.
  - discriminate.
  - discriminate.
Defined.

Lemma filter_none (d : DataFrame) (P : row → Prop) `{∀ r, Decision (P r)} :
  (∀ r, ¬ P r) → filter P d = [].
Proof.
  intros HP. induction d as [|r d IH]; [reflexivity|].
  rewrite filter_cons, decide_False by apply HP. exact IH.
Qed.

(** X6.  A range whose lower bound is not below or equal to its upper
    bound, one with a NaN bound included, selects no row; the call
    returns an empty frame and does not raise. *)
Theorem filter_dataframe_inverted_range (h : heap) (a : ref) (d : DataFrame)
    (lo hi : float) (tl : list float) (st : option (list Z)) (ac : option (list string)) :
  h !! a = Some d →
  PyFloat.leb lo hi = false →
  returns_frame (filter_dataframe a (Some (lo :: hi :: tl)) st ac) h [].
Proof.
  intros Ha Hinv.
  pose proof (filter_dataframe_range h a d lo hi tl st ac Ha) as H.
  rewrite (filter_none d (in_range lo hi)) in H; [exact H|].
  intros r [H1 H2]%andb_true_iff. rewrite geb_leb in H1.
  by rewrite (leb_trans _ _ _ H1 H2) in Hinv.
Qed.

Lemma filter_dataframe_inverted_range_witness :
  returns_frame (filter_dataframe 0%nat (Some [8; 6.5]%float) None None)
    [scenario_dataset] [].
Proof.
  apply (filter_dataframe_inverted_range [scenario_dataset] 0%nat scenario_dataset
           8%float 6.5%float [] None None); reflexivity.
Defined.

(** X7.  Whenever a range is applied, no returned row has a missing sleep
    duration, whatever the bounds: a NaN duration fails both
    comparisons. *)
Theorem filter_dataframe_range_drops_missing (h : heap) (a : ref) (d : DataFrame)
    (lo hi : float) (tl : list float) (st : option (list Z)) (ac : option (list string)) :
  h !! a = Some d →
  ∃ out,
    returns_frame (filter_dataframe a (Some (lo :: hi :: tl)) st ac) h out
    ∧ Forall (λ r, PrimFloat.is_nan (sleep_duration r) = false) out.
Proof.
  intros Ha. eexists. split; [by apply filter_dataframe_range|].
  apply Forall_forall. intros r Hr.
  do 2 apply list_elem_of_filter in Hr as [_ Hr].
  apply list_elem_of_filter in Hr as [[_ Hr%leb_not_nan]%andb_true_iff _].
  apply Hr.
Qed.

Lemma filter_dataframe_range_drops_missing_witness :
  ∃ out,
    returns_frame
      (filter_dataframe 0%nat (Some [neg_infinity; infinity]%float) None None)
      [dataset_with_missing] out
    ∧ Forall (λ r, PrimFloat.is_nan (sleep_duration r) = false) out.
Proof.
  apply (filter_dataframe_range_drops_missing [dataset_with_missing] 0%nat
           dataset_with_missing neg_infinity infinity [] None None).
  reflexivity.
Defined.

(** ** The callback *)

(** X8.  A one-element [sleep_range] makes the callback raise
    [IndexError]: the exception of [filter_dataframe] is not caught, and
    no statistic or chart is computed (the store holds the copy of the
    dataset and nothing else new). *)
Theorem update_dashboard_short_range (h : heap) (d : DataFrame) (x : float)
    (st : option (list Z)) (ac : option (list string)) :
  h !! df = Some d →
  update_dashboard (Some [x]) st ac h = (Raise IndexError, h ++ [d]).
Proof.
  intros Hd. apply update_dashboard_raises. by apply filter_dataframe_short.
Qed.

Lemma update_dashboard_short_range_witness :
  update_dashboard (Some [6.5]%float) (Some [2]) None [scenario_dataset]
  = (Raise IndexError, [scenario_dataset] ++ [scenario_dataset]).
Proof.
  apply (update_dashboard_short_range [scenario_dataset] scenario_dataset
           6.5%float (Some [2]) None).
  reflexivity.
Defined.

(** X9.  No invocation of the callback returns.  When [sleep_range] is a
    list of one element the filter raises [IndexError]; for every other
    input the filter, the statistics and the first three charts are
    computed and the call for the fourth chart, on line 297, raises
    [ValueError].  The frames of the store stay as they were. *)
Theorem update_dashboard_never_returns (h : heap) (d : DataFrame)
    (sr : option (list float)) (st : option (list Z)) (ac : option (list string)) :
  h !! df = Some d →
  ∃ e h1,
    update_dashboard sr st ac h = (Raise e, h1)
    ∧ (e = IndexError ∨ e = ValueError)
    ∧ (e = IndexError ↔ ∃ x, sr = Some [x])
    ∧ (∀ b x, h !! b = Some x → h1 !! b = Some x).
Proof.
  intros Hd. destruct (update_dashboard_outcome h d sr st ac Hd) as (h1 & Hkeep & Hrun).
  eexists _, h1. split; [exact Hrun|]. split; [|split; [|exact Hkeep]].
  - destruct sr as [[|lo [|hi tl]]|]; cbn [rows_selected]; auto.
  - destruct sr as [[|lo [|hi tl]]|]; cbn [rows_selected]; split;
      try discriminate; try (intros [x [=]]); eauto.
Qed.

Lemma update_dashboard_never_returns_witness :
  ∃ e h1,
    update_dashboard None (Some [2]) None [scenario_dataset] = (Raise e, h1)
    ∧ (e = IndexError ∨ e = ValueError)
    ∧ (e = IndexError ↔ ∃ x, (None : option (list float)) = Some [x])
    ∧ (∀ b x, [scenario_dataset] !! b = Some x → h1 !! b = Some x).
Proof.
  apply (update_dashboard_never_returns [scenario_dataset] scenario_dataset
           None (Some [2]) None).
  reflexivity.
Defined.

(** ** The filter controls *)

Example py_int_samples :
  Layout.py_int <$> [5.8; 8.5; (-5.8); 0.3; (-0); 1e22; nan; infinity]%float
  = [ Layout.Done 5; Layout.Done 8; Layout.Done (-5); Layout.Done 0; Layout.Done 0;
      Layout.Done 10000000000000000000000;
      Layout.Raised Layout.ValueError; Layout.Raised Layout.OverflowError ].
Proof. vm_compute. reflexivity. Qed.

Example str_int_samples :
  Layout.str_int <$> [0; 7; 12; -3] = ["0"; "7"; "12"; "-3"].
Proof. vm_compute. reflexivity. Qed.

Example unique_sorted_sample :
  Layout.sorted_int (Layout.unique [5; 2; 5; 8; 2; 3]) = [2; 3; 5; 8]
  ∧ Layout.unique [5; 2; 5; 8; 2; 3] = [5; 2; 8; 3]
  ∧ Layout.sorted_str (Layout.unique ["Low"; "High"; "Low"; "Medium"; "high"])
    = ["High"; "Low"; "Medium"; "high"].
Proof. vm_compute. repeat split. Qed.

Lemma finite_not_nan (x : float) : Layout.finite x → PrimFloat.is_nan x = false.
Proof.
  unfold Layout.finite. intros H. apply is_nan_false. intros E. by rewrite E in H.
Qed.

Lemma leb_infinity (x : float) :
  PrimFloat.is_nan x = false → PyFloat.leb x infinity = true.
Proof.
  intros H%is_nan_false. unfold PyFloat.leb. rewrite leb_spec.
  change (Prim2SF infinity) with (S754_infinity false).
  destruct (Prim2SF x) as [[]|[]| |[] m e]; try reflexivity. by destruct H.
Qed.

Lemma leb_neg_infinity (x : float) :
  PrimFloat.is_nan x = false → PyFloat.leb neg_infinity x = true.
Proof.
  intros H%is_nan_false. unfold PyFloat.leb. rewrite leb_spec.
  change (Prim2SF neg_infinity) with (S754_infinity true).
  destruct (Prim2SF x) as [[]|[]| |[] m e]; try reflexivity. by destruct H.
Qed.

Lemma finite_above_infinity (y : float) :
  Layout.finite y → PyFloat.leb infinity y = false.
Proof.
  unfold Layout.finite, PyFloat.leb. rewrite leb_spec.
  change (Prim2SF infinity) with (S754_infinity false).
  destruct (Prim2SF y) as [[]|[]| |[] m e]; try reflexivity; intros [].
Qed.

Lemma finite_below_neg_infinity (y : float) :
  Layout.finite y → PyFloat.leb y neg_infinity = false.
Proof.
  unfold Layout.finite, PyFloat.leb. rewrite leb_spec.
  change (Prim2SF neg_infinity) with (S754_infinity true).
  destruct (Prim2SF y) as [[]|[]| |[] m e]; try reflexivity; intros [].
Qed.

Lemma fmin_finite (l : list float) :
  Forall (λ v, Layout.finite v ∨ v = infinity) l → l ≠ [] →
  (Layout.finite (reduce fmin l) ∨ reduce fmin l = infinity)
  ∧ (Exists Layout.finite l → Layout.finite (reduce fmin l)).
Proof.
  intros Hl Hne.
  assert (Forall (λ v, PrimFloat.is_nan v = false) l) as Hnan.
  { eapply Forall_impl; [exact Hl|]. intros v [?%finite_not_nan| ->]; done. }
  destruct (fmin_lower l Hnan Hne) as [Hin Hle].
  rewrite Forall_forall in Hl, Hle.
  split; [by apply Hl|]. intros (u & Hu & Hf)%Exists_exists.
  destruct (Hl _ Hin) as [Hm|Hm]; [exact Hm|]. exfalso.
  specialize (Hle u Hu). rewrite Hm in Hle.
  by rewrite (finite_above_infinity _ Hf) in Hle.
Qed.

Lemma fmax_finite (l : list float) :
  Forall (λ v, Layout.finite v ∨ v = neg_infinity) l → l ≠ [] →
  (Layout.finite (reduce fmax l) ∨ reduce fmax l = neg_infinity)
  ∧ (Exists Layout.finite l → Layout.finite (reduce fmax l)).
Proof.
  intros Hl Hne.
  assert (Forall (λ v, PrimFloat.is_nan v = false) l) as Hnan.
  { eapply Forall_impl; [exact Hl|]. intros v [?%finite_not_nan| ->]; done. }
  destruct (fmax_upper l Hnan Hne) as [Hin Hle].
  rewrite Forall_forall in Hl, Hle.
  split; [by apply Hl|]. intros (u & Hu & Hf)%Exists_exists.
  destruct (Hl _ Hin) as [Hm|Hm]; [exact Hm|]. exfalso.
  specialize (Hle u Hu). rewrite Hm in Hle.
  by rewrite (finite_below_neg_infinity _ Hf) in Hle.
Qed.

Lemma forallb_is_nan_false (s : list float) (v : float) :
  v ∈ s → PrimFloat.is_nan v = false → forallb PrimFloat.is_nan s = false.
Proof.
  intros Hv Hn. induction s as [|x s IH]; [by apply elem_of_nil in Hv|].
  apply elem_of_cons in Hv as [<-|Hv]; simpl.
  - by rewrite Hn.
  - rewrite (IH Hv). apply andb_false_r.
Qed.

(** With missing values: the least value is below, and the greatest
    above, every value that is not missing. *)
Lemma series_min_max_bounds (s : list float) (v : float) :
  v ∈ s → PrimFloat.is_nan v = false →
  PyFloat.leb (series_min s) v = true ∧ PyFloat.leb v (series_max s) = true.
Proof.
  intros Hv Hn. unfold series_min, series_max.
  rewrite (forallb_is_nan_false s v Hv Hn).
  assert (∀ c, PrimFloat.is_nan c = false →
               Forall (λ w, PrimFloat.is_nan w = false)
                 (map (λ w, if PrimFloat.is_nan w then c else w) s)
               ∧ v ∈ map (λ w, if PrimFloat.is_nan w then c else w) s) as Hfill.
  { intros c Hc. split.
    - apply Forall_forall. intros w (u & -> & _)%list_elem_of_fmap.
      destruct (PrimFloat.is_nan u) eqn:Eu; [exact Hc | exact Eu].
    - apply list_elem_of_fmap. exists v. by rewrite Hn. }
  destruct (Hfill infinity eq_refl) as [H1 H1'].
  destruct (Hfill neg_infinity eq_refl) as [H2 H2'].
  assert (∀ l : list float, v ∈ l → l ≠ []) as Hne
    by (intros l Hl ->; by apply elem_of_nil in Hl).
  destruct (fmin_lower _ H1 (Hne _ H1')) as [_ Hmin].
  destruct (fmax_upper _ H2 (Hne _ H2')) as [_ Hmax].
  rewrite Forall_forall in Hmin, Hmax. split; [by apply Hmin | by apply Hmax].
Qed.

Lemma series_min_max_finite (s : list float) :
  Forall (λ v, Layout.finite v ∨ PrimFloat.is_nan v = true) s →
  Exists Layout.finite s →
  Layout.finite (series_min s) ∧ Layout.finite (series_max s).
Proof.
  intros Hall Hex.
  assert (∃ v, v ∈ s ∧ PrimFloat.is_nan v = false) as (v & Hv & Hn).
  { apply Exists_exists in Hex as (v & Hv & Hf). exists v.
    split; [exact Hv | by apply finite_not_nan]. }
  unfold series_min, series_max. rewrite (forallb_is_nan_false s v Hv Hn).
  assert (∀ c, Forall (λ w, Layout.finite w ∨ w = c)
                 (map (λ w, if PrimFloat.is_nan w then c else w) s)
               ∧ Exists Layout.finite (map (λ w, if PrimFloat.is_nan w then c else w) s))
    as Hfill.
  { intros c. split.
    - apply Forall_forall. intros w (u & -> & Hu)%list_elem_of_fmap.
      rewrite Forall_forall in Hall. destruct (Hall u Hu) as [Hf|Hnan].
      + left. by rewrite (finite_not_nan _ Hf).
      + right. by rewrite Hnan.
    - apply Exists_exists in Hex as (u & Hu & Hf). apply Exists_exists.
      exists u. split; [|exact Hf]. apply list_elem_of_fmap. exists u.
      by rewrite (finite_not_nan _ Hf). }
  destruct (Hfill infinity) as [H1 H1']. destruct (Hfill neg_infinity) as [H2 H2'].
  assert (∀ l : list float, Exists Layout.finite l → l ≠ []) as Hne
    by (intros l Hl ->; by apply Exists_nil in Hl).
  split; [by apply fmin_finite; auto | by apply fmax_finite; auto].
Qed.

Lemma py_int_finite (x : float) : Layout.finite x → ∃ z, Layout.py_int x = Layout.Done z.
Proof.
  unfold Layout.finite, Layout.py_int.
  destruct (Prim2SF x) as [[]|[]| |s m e]; intros H; try (by destruct H); eauto.
Qed.

Lemma header_done : ∃ c, Layout.header = Layout.Done c.
Proof. eexists. vm_compute. reflexivity. Qed.

Lemma stats_cards_done : ∃ c, Layout.stats_cards = Layout.Done c.
Proof. eexists. vm_compute. reflexivity. Qed.

(** X11.  A table in which no row has a sleep duration, an empty table
    included, stops the program while the page is built: the least
    duration is NaN, and [int] of it on line 63 raises [ValueError]. *)
Theorem layout_without_durations (d : DataFrame) :
  Forall (λ r, PrimFloat.is_nan (sleep_duration r) = true) d →
  Layout.sleep_slider d = Layout.Raised Layout.ValueError
  ∧ Layout.filters d = Layout.Raised Layout.ValueError
  ∧ Layout.layout d = Layout.Raised Layout.ValueError.
Proof.
  intros Hd.
  assert (Layout.min_duration d = nan) as Hmin.
  { unfold Layout.min_duration, series_min, column.
    replace (forallb PrimFloat.is_nan (map sleep_duration d)) with true;
      [reflexivity|].
    symmetry. apply forallb_forall. intros v Hv.
    apply in_map_iff in Hv as (u & <- & Hu).
    rewrite Forall_forall in Hd. apply Hd. by apply list_elem_of_In. }
  assert (Layout.sleep_slider d = Layout.Raised Layout.ValueError) as Hs
    by (unfold Layout.sleep_slider; rewrite Hmin; reflexivity).
  assert (Layout.filters d = Layout.Raised Layout.ValueError) as Hf
    by (unfold Layout.filters; rewrite Hs; reflexivity).
  split; [exact Hs|]. split; [exact Hf|].
  unfold Layout.layout. destruct header_done as [c ->]. cbn. by rewrite Hf.
Qed.

Lemma layout_without_durations_witness :
  Layout.layout [] = Layout.Raised Layout.ValueError.
Proof. apply (layout_without_durations []). constructor. Defined.

(** X12.  When every sleep duration is a finite number or missing, and at
    least one is a number, the slider is built: its bounds are the least
    and the greatest duration, the lower is not above the upper, the
    initial value is the full range, every duration that is present lies
    within it, and the marks are the integers from [int(min)] to
    [int(max)], each labelled with its number of hours. *)
Theorem sleep_slider_well_formed (d : DataFrame) :
  Forall (λ r, Layout.finite (sleep_duration r)
               ∨ PrimFloat.is_nan (sleep_duration r) = true) d →
  Exists (λ r, Layout.finite (sleep_duration r)) d →
  ∃ c first last,
    Layout.sleep_slider d = Layout.Done c
    ∧ Layout.py_int (Layout.min_duration d) = Layout.Done first
    ∧ Layout.py_int (Layout.max_duration d) = Layout.Done last
    ∧ Layout.prop_of c "min" = Some (Layout.AFloat (Layout.min_duration d))
    ∧ Layout.prop_of c "max" = Some (Layout.AFloat (Layout.max_duration d))
    ∧ Layout.prop_of c "value"
      = Some (Layout.AList (Layout.AFloat <$> full_sleep_range d))
    ∧ PyFloat.leb (Layout.min_duration d) (Layout.max_duration d) = true
    ∧ (∀ r, r ∈ d → PrimFloat.is_nan (sleep_duration r) = false →
            PyFloat.leb (Layout.min_duration d) (sleep_duration r) = true
            ∧ PyFloat.leb (sleep_duration r) (Layout.max_duration d) = true)
    ∧ Layout.prop_of c "marks"
      = Some (Layout.AIntDict
                ((λ i, (i, Layout.ADict
                             [ ("label", Layout.AStr (Layout.str_int i +:+ "h"));
                               ("style", Layout.ADict [("fontSize", Layout.AStr "11px")]) ]))
                   <$> seqZ first (last - first + 1))).
Proof.
  intros Hall Hex.
  assert (Layout.finite (Layout.min_duration d) ∧ Layout.finite (Layout.max_duration d))
    as [Hlo Hhi].
  { apply series_min_max_finite; unfold column.
    - by apply Forall_fmap.
    - apply Exists_exists in Hex as (r & Hr & Hf). apply Exists_exists.
      exists (sleep_duration r). split; [|exact Hf].
      apply list_elem_of_fmap. by exists r. }
  destruct (py_int_finite _ Hlo) as [first Hfirst].
  destruct (py_int_finite _ Hhi) as [last Hlast].
  assert (∀ r, r ∈ d → PrimFloat.is_nan (sleep_duration r) = false →
               PyFloat.leb (Layout.min_duration d) (sleep_duration r) = true
               ∧ PyFloat.leb (sleep_duration r) (Layout.max_duration d) = true)
    as Hbounds.
  { intros r Hr Hn. apply series_min_max_bounds; [|exact Hn].
    unfold column. apply list_elem_of_fmap. by exists r. }
  eexists _, first, last. unfold Layout.sleep_slider.
  rewrite Hfirst, Hlast. cbn [mbind Layout.outcome_bind mret Layout.outcome_ret].
  split; [reflexivity|]. split; [reflexivity|]. split; [reflexivity|].
  split; [reflexivity|]. split; [reflexivity|]. split; [reflexivity|].
  split; [|split; [exact Hbounds|]].
  - apply Exists_exists in Hex as (r & Hr & Hf).
    destruct (Hbounds r Hr (finite_not_nan _ Hf)) as [H1 H2].
    exact (leb_trans _ _ _ H1 H2).
  - unfold Layout.py_range. replace (last + 1 - first) with (last - first + 1) by lia.
    reflexivity.
Qed.

Lemma sleep_slider_well_formed_witness :
  ∃ c first last,
    Layout.sleep_slider dataset_with_missing = Layout.Done c
    ∧ Layout.py_int (Layout.min_duration dataset_with_missing) = Layout.Done first
    ∧ Layout.py_int (Layout.max_duration dataset_with_missing) = Layout.Done last
    ∧ Layout.prop_of c "min"
      = Some (Layout.AFloat (Layout.min_duration dataset_with_missing))
    ∧ Layout.prop_of c "max"
      = Some (Layout.AFloat (Layout.max_duration dataset_with_missing))
    ∧ Layout.prop_of c "value"
      = Some (Layout.AList (Layout.AFloat <$> full_sleep_range dataset_with_missing))
    ∧ PyFloat.leb (Layout.min_duration dataset_with_missing)
        (Layout.max_duration dataset_with_missing) = true
    ∧ (∀ r, r ∈ dataset_with_missing → PrimFloat.is_nan (sleep_duration r) = false →
            PyFloat.leb (Layout.min_duration dataset_with_missing) (sleep_duration r) = true
            ∧ PyFloat.leb (sleep_duration r) (Layout.max_duration dataset_with_missing)
              = true)
    ∧ Layout.prop_of c "marks"
      = Some (Layout.AIntDict
                ((λ i, (i, Layout.ADict
                             [ ("label", Layout.AStr (Layout.str_int i +:+ "h"));
                               ("style", Layout.ADict [("fontSize", Layout.AStr "11px")]) ]))
                   <$> seqZ first (last - first + 1))).
Proof.
  apply (sleep_slider_well_formed dataset_with_missing).
  - constructor; [left; exact I|]. constructor; [right; reflexivity|]. constructor.
  - apply Exists_cons_hd. exact I.
Defined.

(** Durations from 5.8 to 8.5 hours: the marks are 5, 6, 7 and 8; the
    first lies below the slider's minimum. *)
Example sleep_slider_marks :
  let mark (i : Z) (label : string) :=
    (i, Layout.ADict [ ("label", Layout.AStr label);
                       ("style", Layout.ADict [("fontSize", Layout.AStr "11px")]) ]) in
  match Layout.sleep_slider [Row 1 5.8 7 5 "Low" []; Row 2 8.5 9 2 "High" []] with
  | Layout.Done c => Layout.prop_of c "marks"
  | Layout.Raised _ => None
  end
  = Some (Layout.AIntDict [mark 5 "5h"; mark 6 "6h"; mark 7 "7h"; mark 8 "8h"]).
Proof. vm_compute. reflexivity. Qed.

(** ** The dropdown options *)

Lemma elem_of_unique {A} `{EqDecision A} (l : list A) (x : A) :
  x ∈ Layout.unique l ↔ x ∈ l.
Proof.
  induction l as [|a l IH]; [reflexivity|]. cbn [Layout.unique].
  rewrite !elem_of_cons, list_elem_of_filter, IH.
  destruct (decide (x = a)); tauto.
Qed.

Lemma NoDup_unique {A} `{EqDecision A} (l : list A) : NoDup (Layout.unique l).
Proof.
  induction l as [|a l IH]; [constructor|]. cbn [Layout.unique]. constructor.
  - rewrite list_elem_of_filter. tauto.
  - by apply NoDup_filter.
Qed.

#[local] Instance Z_le_total : Total Z.le.
Proof. intros x y. lia. Qed.

Lemma sorted_le_lt (l : list Z) :
  StronglySorted Z.le l → NoDup l → StronglySorted Z.lt l.
Proof.
  induction 1 as [|x l Hs IH Hx]; intros Hnd; [constructor|].
  apply NoDup_cons in Hnd as [Hx' Hnd]. constructor; [by apply IH|].
  apply Forall_forall. intros y Hy. rewrite Forall_forall in Hx.
  specialize (Hx y Hy). assert (x ≠ y) by (intros ->; contradiction). lia.
Qed.

(** X13.  The options of the stress dropdown are the stress levels that
    occur in the dataset, each once, in ascending order; the option of the
    level [n] is labelled [Level n] and has the integer [n] as its
    value. *)
Theorem stress_options_sorted (d : DataFrame) :
  ∃ levels,
    Layout.stress_options d
    = (λ s, Layout.ADict [ ("label", Layout.AStr ("Level " +:+ Layout.str_int s));
                           ("value", Layout.AInt s) ]) <$> levels
    ∧ StronglySorted Z.lt levels
    ∧ (∀ v, v ∈ levels ↔ ∃ r, r ∈ d ∧ stress_level r = v).
Proof.
  exists (Layout.sorted_int (Layout.unique (column stress_level d))).
  split; [reflexivity|].
  unfold Layout.sorted_int, column. split.
  - apply sorted_le_lt.
    + apply StronglySorted_merge_sort; apply _.
    + rewrite merge_sort_Permutation. apply NoDup_unique.
  - intros v. rewrite merge_sort_Permutation, elem_of_unique, list_elem_of_fmap.
    split; intros (r & H1 & H2); exists r; by split.
Qed.

(** X14.  No option is dead and no row is out of reach: every stress
    level and every activity level offered by a dropdown, selected alone
    with no range, returns at least one row, and every row of the dataset
    is returned for the option of its stress level and for the option of
    its activity level. *)
Theorem dropdown_options_select_rows (h : heap) (d : DataFrame) :
  h !! df = Some d →
  (∀ v, Layout.ADict [ ("label", Layout.AStr ("Level " +:+ Layout.str_int v));
                       ("value", Layout.AInt v) ] ∈ Layout.stress_options d →
        ∃ out, returns_frame (filter_dataframe df None (Some [v]) None) h out ∧ out ≠ [])
  ∧ (∀ v, Layout.ADict [ ("label", Layout.AStr v); ("value", Layout.AStr v) ]
          ∈ Layout.activity_options d →
          ∃ out, returns_frame (filter_dataframe df None None (Some [v])) h out ∧ out ≠ [])
  ∧ (∀ r, r ∈ d →
          Layout.ADict [ ("label", Layout.AStr ("Level " +:+ Layout.str_int (stress_level r)));
                         ("value", Layout.AInt (stress_level r)) ] ∈ Layout.stress_options d
          ∧ Layout.ADict [ ("label", Layout.AStr (physical_activity_level r));
                           ("value", Layout.AStr (physical_activity_level r)) ]
            ∈ Layout.activity_options d
          ∧ (∃ out, returns_frame
                      (filter_dataframe df None (Some [stress_level r]) None) h out
                    ∧ r ∈ out)
          ∧ (∃ out, returns_frame
                      (filter_dataframe df None None (Some [physical_activity_level r])) h out
                    ∧ r ∈ out)).
Proof.
  intros Hd.
  assert (∀ v, v ∈ Layout.sorted_int (Layout.unique (column stress_level d))
               ↔ ∃ r, r ∈ d ∧ stress_level r = v) as Hst.
  { intros v. unfold Layout.sorted_int, column.
    rewrite merge_sort_Permutation, elem_of_unique, list_elem_of_fmap.
    split; intros (r & H1 & H2); exists r; by split. }
  assert (∀ v, v ∈ Layout.sorted_str (Layout.unique (column physical_activity_level d))
               ↔ ∃ r, r ∈ d ∧ physical_activity_level r = v) as Hac.
  { intros v. unfold Layout.sorted_str, column.
    rewrite merge_sort_Permutation, elem_of_unique, list_elem_of_fmap.
    split; intros (r & H1 & H2); exists r; by split. }
  assert (∀ (v : Z) (r : row), r ∈ d → stress_level r = v →
            ∃ out, returns_frame (filter_dataframe df None (Some [v]) None) h out
                   ∧ r ∈ out) as Hsel1.
  { intros v r Hr Hv. eexists. split.
    - apply (filter_dataframe_admits h df d None (Some [v]) None Hd). discriminate.
    - apply list_elem_of_filter. split; [|exact Hr]. unfold admits, selected. cbn.
      split; [exact I|]. split; [right; rewrite Hv; by left | by left]. }
  assert (∀ (v : string) (r : row), r ∈ d → physical_activity_level r = v →
            ∃ out, returns_frame (filter_dataframe df None None (Some [v])) h out
                   ∧ r ∈ out) as Hsel2.
  { intros v r Hr Hv. eexists. split.
    - apply (filter_dataframe_admits h df d None None (Some [v]) Hd). discriminate.
    - apply list_elem_of_filter. split; [|exact Hr]. unfold admits, selected. cbn.
      split; [exact I|]. split; [by left | right; rewrite Hv; by left]. }
  split; [|split].
  - intros v (s & Heq & Hs)%list_elem_of_fmap.
    assert (v = s) as <- by congruence.
    apply Hst in Hs as (r & Hr & Hv).
    destruct (Hsel1 v r Hr Hv) as (out & Hret & Hin). exists out.
    split; [exact Hret|]. intros ->. by apply elem_of_nil in Hin.
  - intros v (s & Heq & Hs)%list_elem_of_fmap.
    assert (v = s) as <- by congruence.
    apply Hac in Hs as (r & Hr & Hv).
    destruct (Hsel2 v r Hr Hv) as (out & Hret & Hin). exists out.
    split; [exact Hret|]. intros ->. by apply elem_of_nil in Hin.
  - intros r Hr. split; [|split; [|split]].
    + apply list_elem_of_fmap. exists (stress_level r). split; [reflexivity|].
      apply Hst. by exists r.
    + apply list_elem_of_fmap. exists (physical_activity_level r). split; [reflexivity|].
      apply Hac. by exists r.
    + by apply Hsel1.
    + by apply Hsel2.
Qed.

Lemma dropdown_options_select_rows_witness :
  ∃ out, returns_frame (filter_dataframe df None (Some [2]) None) [scenario_dataset] out
         ∧ out ≠ [].
Proof.
  apply (proj1 (dropdown_options_select_rows [scenario_dataset] scenario_dataset eq_refl) 2).
  vm_compute. constructor.
Defined.

Example scenario_options :
  Layout.stress_options scenario_dataset
  = [ Layout.ADict [("label", Layout.AStr "Level 2"); ("value", Layout.AInt 2)];
      Layout.ADict [("label", Layout.AStr "Level 5"); ("value", Layout.AInt 5)] ]
  ∧ Layout.activity_options scenario_dataset
    = [ Layout.ADict [("label", Layout.AStr "High"); ("value", Layout.AStr "High")];
        Layout.ADict [("label", Layout.AStr "Low"); ("value", Layout.AStr "Low")] ].
Proof. vm_compute. split; reflexivity. Qed.

(** ** The page and the callback's wiring *)

(** A decidable statement, settled by evaluating its decision procedure. *)
Ltac decide_by_evaluation :=
  match goal with
  | |- ?P => apply (bool_decide_unpack P); vm_compute; exact I
  end.

(** X15.  Whenever the page is built, whatever the dataset: its component
    ids are the three filter controls, the four cards and the four
    graphs, each once; every output and every input of the callback names
    one of these components, of the class that carries the property
    (cards [children], graphs [figure], controls [value]); the eight
    outputs are distinct, and none of them is an input. *)
Theorem callback_wiring (d : DataFrame) (page : Layout.component) :
  Layout.layout d = Layout.Done page →
  Layout.ids page
  = [ "sleep-filter"; "stress-filter"; "activity-filter";
      "stat-total"; "stat-sleep"; "stat-quality"; "stat-stress";
      "plot-overview"; "plot-stress"; "plot-activity"; "plot-comprehensive" ]
  ∧ NoDup (Layout.ids page)
  ∧ Forall (λ target,
              Exists (λ c, Layout.id_of c = Some target.1
                           ∧ Layout.kind_of c ∈ Layout.class_with target.2)
                     (Layout.components page))
           (Layout.callback_outputs ++ Layout.callback_inputs)
  ∧ NoDup (Layout.callback_outputs.*1)
  ∧ Forall (λ i, i ∉ Layout.callback_inputs.*1) (Layout.callback_outputs.*1).
Proof.
  intros H. unfold Layout.layout, Layout.filters, Layout.sleep_slider in H.
  let t := eval vm_compute in Layout.header in change Layout.header with t in H.
  let t := eval vm_compute in Layout.stats_cards in change Layout.stats_cards with t in H.
  let t := eval vm_compute in (Layout.color "background") in
    change (Layout.color "background") with t in H.
  cbn [mbind Layout.outcome_bind mret Layout.outcome_ret] in H.
  destruct (Layout.py_int (Layout.min_duration d)) as [first|e]; [|discriminate H].
  destruct (Layout.py_int (Layout.max_duration d)) as [last|e]; [|discriminate H].
  cbn [mbind Layout.outcome_bind mret Layout.outcome_ret] in H.
  injection H as <-.
  match goal with
  | |- Layout.ids ?p = ?l ∧ _ =>
      assert (Layout.ids p = l) as Hids by (vm_compute; reflexivity)
  end.
  split; [exact Hids|]. split; [|split; [|split]].
  - rewrite Hids. decide_by_evaluation.
  - decide_by_evaluation.
  - decide_by_evaluation.
  - decide_by_evaluation.
Qed.

Lemma callback_wiring_witness :
  match Layout.layout scenario_dataset with
  | Layout.Done page =>
      Layout.ids page
      = [ "sleep-filter"; "stress-filter"; "activity-filter";
          "stat-total"; "stat-sleep"; "stat-quality"; "stat-stress";
          "plot-overview"; "plot-stress"; "plot-activity"; "plot-comprehensive" ]
      ∧ NoDup (Layout.ids page)
      ∧ Forall (λ target,
                  Exists (λ c, Layout.id_of c = Some target.1
                               ∧ Layout.kind_of c ∈ Layout.class_with target.2)
                         (Layout.components page))
               (Layout.callback_outputs ++ Layout.callback_inputs)
      ∧ NoDup (Layout.callback_outputs.*1)
      ∧ Forall (λ i, i ∉ Layout.callback_inputs.*1) (Layout.callback_outputs.*1)
  | Layout.Raised _ => False
  end.
Proof.
  destruct (Layout.layout scenario_dataset) as [page|e] eqn:E;
    [|vm_compute in E; discriminate E].
  apply (callback_wiring scenario_dataset page E).
Defined.

(** ** The loader: what it leaves alone, and loading twice *)

Lemma rectangular_row (t : Loader.Table) (i : nat) (r : list Loader.cell) :
  Loader.rectangular t → Loader.rows t !! i = Some r →
  length r = length (Loader.columns t).
Proof.
  unfold Loader.rectangular. rewrite Forall_forall. intros Hrect Hr.
  apply Hrect. by eapply list_elem_of_lookup_2.
Qed.

(** An assignment across the columns called [name] leaves the cells
    under the other columns as they were. *)
Lemma assign_across_other (cols : list string) (name : string)
    (values r : list Loader.cell) (j : nat) (c : string) :
  cols !! j = Some c → c ≠ name →
  Loader.assign_across cols name values r !! j = r !! j.
Proof.
  revert values r j. induction cols as [|c0 cols IH]; intros values r j Hc Hne;
    [discriminate Hc|].
  destruct r as [|x r]; [reflexivity|]. cbn [Loader.assign_across].
  destruct j as [|j].
  - injection Hc as ->. by rewrite bool_decide_eq_false_2.
  - cbn in Hc. case_bool_decide; [destruct values|]; cbn; by apply IH.
Qed.

(** X16.  The loader changes no cell of the file: in every row of the
    loaded table, the cell under every column other than [Sample ID] is
    the cell the reader delivered at that place. *)
Theorem loader_keeps_cells (read_csv : string → result Loader.Table) (t : Loader.Table) :
  read_csv Loader.csv_path = Return t →
  Loader.rectangular t →
  ∃ t', Loader.df read_csv = Return t'
        ∧ ∀ i j r r' c,
            Loader.rows t !! i = Some r →
            Loader.rows t' !! i = Some r' →
            Loader.columns t' !! j = Some c →
            c ≠ "Sample ID" →
            r' !! j = r !! j.
Proof.
  intros Hread Hrect. unfold Loader.df. rewrite Hread. eexists. split; [reflexivity|].
  intros i j r r' c Hr Hr' Hc Hne.
  set (t1 := Loader.strip_columns t) in *.
  assert (Loader.rectangular t1) as Hrect1
    by (unfold Loader.rectangular in *; cbn; by rewrite length_fmap).
  assert (Loader.rows t1 !! i = Some r) as Hr1 by exact Hr.
  pose proof (rectangular_row t1 i r Hrect1 Hr1) as Hlen.
  revert Hr' Hc. unfold Loader.setitem. case_bool_decide as Hk; [|case_bool_decide as Hin];
    cbn [Loader.rows Loader.columns].
  - rewrite list_lookup_fmap. intros Hr' Hc. rewrite Hr1 in Hr'. injection Hr' as <-.
    by apply (assign_across_other _ _ _ _ j c).
  - intros (r0 & v & -> & Hr0 & Hv)%lookup_zip_with_Some Hc.
    assert (r0 = r) as -> by congruence.
    rewrite lookup_zip_with, Hc. cbn. destruct (r !! j) as [x|]; [|reflexivity].
    cbn. by rewrite bool_decide_eq_false_2.
  - intros (r0 & v & -> & Hr0 & Hv)%lookup_zip_with_Some Hc.
    assert (r0 = r) as -> by congruence.
    assert (j < length (Loader.columns t1))%nat as Hj.
    { pose proof (lookup_lt_Some _ _ _ Hc) as Hj. rewrite length_app in Hj.
      cbn [length] in Hj.
      destruct (decide (j = length (Loader.columns t1))) as [->|Hne']; [|lia].
      rewrite list_lookup_middle in Hc by reflexivity. congruence. }
    apply lookup_app_l. lia.
Qed.

Lemma loader_keeps_cells_witness :
  ∃ t', Loader.df (λ _, Return Loader.table_without_quality) = Return t'
        ∧ ∀ i j r r' c,
            Loader.rows Loader.table_without_quality !! i = Some r →
            Loader.rows t' !! i = Some r' →
            Loader.columns t' !! j = Some c →
            c ≠ "Sample ID" →
            r' !! j = r !! j.
Proof.
  apply (loader_keeps_cells (λ _, Return Loader.table_without_quality)
           Loader.table_without_quality).
  - reflexivity.
  - repeat constructor.
Defined.

Lemma lstrip_id (s : string) :
  (∀ a, Loader.first_char s = Some a → Loader.is_space a = false) →
  Loader.lstrip s = s.
Proof.
  destruct s as [|a s]; [reflexivity|]. intros H. simpl.
  by rewrite (H a eq_refl).
Qed.

Lemma rstrip_id (s : string) :
  (∀ a, Loader.last_char s = Some a → Loader.is_space a = false) →
  Loader.rstrip s = s.
Proof.
  induction s as [|b s IH]; [reflexivity|]. intros H. simpl.
  destruct s as [|c s].
  - simpl. by rewrite (H b eq_refl).
  - rewrite IH by (intros a Ha; apply H; exact Ha). reflexivity.
Qed.

Lemma strip_trimmed_id (s : string) : Loader.trimmed s → Loader.strip s = s.
Proof.
  intros [H1 H2]. unfold Loader.strip. rewrite (lstrip_id s H1). by apply rstrip_id.
Qed.

Lemma strip_idempotent (s : string) : Loader.strip (Loader.strip s) = Loader.strip s.
Proof. apply strip_trimmed_id, strip_trimmed. Qed.

Lemma overwrite_idempotent (name : string) (v : Loader.cell)
    (cols : list string) (r : list Loader.cell) :
  zip_with (λ c x, if bool_decide (c = name) then v else x) cols
    (zip_with (λ c x, if bool_decide (c = name) then v else x) cols r)
  = zip_with (λ c x, if bool_decide (c = name) then v else x) cols r.
Proof.
  revert r. induction cols as [|c cols IH]; intros [|x r]; simpl; try reflexivity.
  rewrite IH. by destruct (bool_decide (c = name)).
Qed.

Lemma overwrite_appended (name : string) (v : Loader.cell)
    (cols : list string) (r : list Loader.cell) :
  name ∉ cols → length r = length cols →
  zip_with (λ c x, if bool_decide (c = name) then v else x) (cols ++ [name]) (r ++ [v])
  = r ++ [v].
Proof.
  revert r. induction cols as [|c cols IH]; intros [|x r] Hin Hlen;
    try discriminate Hlen; simpl.
  - by rewrite bool_decide_eq_true_2.
  - apply not_elem_of_cons in Hin as [Hne Hin].
    rewrite bool_decide_eq_false_2 by congruence.
    rewrite IH; [reflexivity | exact Hin | by injection Hlen].
Qed.

Lemma zip_with_fixed {A B} (f : A → B → A) (l : list A) (k : list B) :
  length l = length k →
  (∀ i x y, l !! i = Some x → k !! i = Some y → f x y = x) →
  zip_with f l k = l.
Proof.
  revert k. induction l as [|x l IH]; intros [|y k] Hlen Hf; try discriminate Hlen;
    [reflexivity|].
  simpl. rewrite (Hf 0%nat x y eq_refl eq_refl). f_equal.
  apply IH; [by injection Hlen|]. intros i x' y' Hx Hy. exact (Hf (S i) x' y' Hx Hy).
Qed.

Lemma occurrences_absent (name : string) (cols : list string) :
  name ∉ cols → Loader.occurrences name cols = 0%nat.
Proof.
  unfold Loader.occurrences. induction cols as [|c cols IH]; [reflexivity|].
  intros [Hne Hin]%not_elem_of_cons.
  rewrite filter_cons_False by congruence. by apply IH.
Qed.

Lemma occurrences_appended (name : string) (cols : list string) :
  Loader.occurrences name (cols ++ [name]) = S (Loader.occurrences name cols).
Proof.
  unfold Loader.occurrences. rewrite filter_app, length_app.
  rewrite filter_cons_True by reflexivity. cbn. lia.
Qed.

Lemma assign_across_idempotent (cols : list string) (name : string)
    (values r : list Loader.cell) :
  Loader.assign_across cols name values (Loader.assign_across cols name values r)
  = Loader.assign_across cols name values r.
Proof.
  revert values r. induction cols as [|c cols IH]; intros values r; [reflexivity|].
  destruct r as [|x r]; [reflexivity|]. cbn [Loader.assign_across].
  destruct (bool_decide (c = name)) eqn:Hc.
  - destruct values as [|v values]; cbn [Loader.assign_across]; by rewrite IH.
  - cbn [Loader.assign_across]. rewrite ?Hc. by rewrite IH.
Qed.

(** Assigning the same values to the same column a second time changes
    nothing. *)
Lemma setitem_idempotent (t : Loader.Table) (name : string) (values : list Loader.cell) :
  Loader.rectangular t →
  length values = length (Loader.rows t) →
  Loader.setitem (Loader.setitem t name values) name values
  = Loader.setitem t name values.
Proof.
  intros Hrect Hlen. unfold Loader.setitem at 2 3.
  case_bool_decide as Hk; [|case_bool_decide as Hin].
  - unfold Loader.setitem. cbn [Loader.columns Loader.rows].
    rewrite (bool_decide_eq_true_2 _ Hk). f_equal.
    rewrite <- list_fmap_compose. apply list_fmap_ext. intros i r _. cbn.
    apply assign_across_idempotent.
  - unfold Loader.setitem. cbn [Loader.columns Loader.rows].
    assert (length (zip_with
                      (λ r v, zip_with (λ c x, if bool_decide (c = name) then v else x)
                                (Loader.columns t) r)
                      (Loader.rows t) values) = length values) as Hl
      by (rewrite length_zip_with_l_eq; congruence).
    rewrite (bool_decide_eq_false_2 _ Hk), (bool_decide_eq_true_2 _ Hin). f_equal.
    apply zip_with_fixed; [exact Hl|].
    intros i r2 v (r & v' & -> & Hr & Hv')%lookup_zip_with_Some Hv.
    assert (v' = v) as -> by congruence. apply overwrite_idempotent.
  - unfold Loader.setitem. cbn [Loader.columns Loader.rows].
    rewrite occurrences_appended, (occurrences_absent _ _ Hin).
    rewrite bool_decide_eq_false_2 by lia.
    rewrite bool_decide_eq_true_2 by (apply elem_of_app; right; by left). f_equal.
    apply zip_with_fixed; [rewrite length_zip_with_l_eq; congruence|].
    intros i r2 v (r & v' & -> & Hr & Hv')%lookup_zip_with_Some Hv.
    assert (v' = v) as -> by congruence.
    apply overwrite_appended; [exact Hin|]. by eapply rectangular_row.
Qed.

(** X17.  Loading is idempotent: a table the loader has returned, read
    again (as from a file written from it), is returned unchanged; the
    headers are already trimmed and the column [Sample ID] is overwritten
    with the identifiers it holds. *)
Theorem loader_idempotent (read_csv : string → result Loader.Table) (t t' : Loader.Table) :
  read_csv Loader.csv_path = Return t →
  Loader.rectangular t →
  Loader.df read_csv = Return t' →
  Loader.df (λ _, Return t') = Return t'.
Proof.
  intros Hread Hrect Hload. unfold Loader.df in Hload. rewrite Hread in Hload.
  injection Hload as <-.
  set (t1 := Loader.strip_columns t).
  set (ids := Loader.range_from_1 (length (Loader.rows t1))).
  set (t2 := Loader.setitem t1 "Sample ID" ids).
  change (Return (Loader.setitem (Loader.strip_columns t2) "Sample ID"
                    (Loader.range_from_1 (length (Loader.rows (Loader.strip_columns t2)))))
          = Return t2).
  f_equal.
  assert (Loader.rectangular t1) as Hrect1
    by (unfold Loader.rectangular in *; cbn; by rewrite length_fmap).
  assert (length ids = length (Loader.rows t1)) as Hids.
  { unfold ids, Loader.range_from_1. rewrite length_fmap, length_seqZ. lia. }
  assert (length (Loader.rows t2) = length (Loader.rows t1)) as Hrows
    by (by apply setitem_length).
  assert (Forall Loader.trimmed (Loader.columns t2)) as Htrim.
  { assert (Forall Loader.trimmed (Loader.columns t1)) as Ht1.
    { cbn. apply Forall_fmap, Forall_forall. intros s _. apply strip_trimmed. }
    destruct (setitem_columns t1 "Sample ID" ids) as [E|E]; unfold t2; rewrite E;
      [exact Ht1|].
    apply Forall_app. split; [exact Ht1|]. constructor; [|constructor].
    split; intros a [= <-]; reflexivity. }
  assert (Loader.strip_columns t2 = t2) as ->.
  { unfold Loader.strip_columns. destruct t2 as [cols rows]. cbn in *. f_equal.
    induction Htrim as [|c cols Hc _ IH]; [reflexivity|].
    cbn. by rewrite (strip_trimmed_id c Hc), IH. }
  rewrite Hrows. fold ids. by apply setitem_idempotent.
Qed.

Lemma loader_idempotent_witness :
  match Loader.df (λ _, Return Loader.table_without_quality) with
  | Return t' => Loader.df (λ _, Return t') = Return t'
  | Raise _ => False
  end.
Proof.
  destruct (Loader.df (λ _, Return Loader.table_without_quality)) as [t'|e] eqn:E;
    [|vm_compute in E; discriminate E].
  apply (loader_idempotent (λ _, Return Loader.table_without_quality)
           Loader.table_without_quality t'); [reflexivity | repeat constructor | exact E].
Defined.

(** X18.  Trimming removes whitespace from the two ends of a header and
    nothing else: each header of the file is the loaded header at the
    same place with whitespace before and after it, and the loaded header
    has none at either end. *)
Theorem loader_headers_trimmed_only (read_csv : string → result Loader.Table)
    (t : Loader.Table) :
  read_csv Loader.csv_path = Return t →
  ∃ t', Loader.df read_csv = Return t'
        ∧ ∀ j s, Loader.columns t !! j = Some s →
            ∃ s' before after,
              Loader.columns t' !! j = Some s'
              ∧ s = before +:+ s' +:+ after
              ∧ Loader.all_space before = true
              ∧ Loader.all_space after = true
              ∧ Loader.trimmed s'.
Proof.
  intros Hread. unfold Loader.df. rewrite Hread. eexists. split; [reflexivity|].
  intros j s Hs. destruct (strip_split s) as (before & after & Heq & Hb & Ha).
  exists (Loader.strip s), before, after.
  split; [|split; [exact Heq|split; [exact Hb|split; [exact Ha | apply strip_trimmed]]]].
  assert (Loader.columns (Loader.strip_columns t) !! j = Some (Loader.strip s)) as Hj
    by (cbn; by rewrite list_lookup_fmap, Hs).
  destruct (setitem_columns (Loader.strip_columns t) "Sample ID"
              (Loader.range_from_1 (length (Loader.rows (Loader.strip_columns t)))))
    as [-> | ->]; [exact Hj|].
  by apply lookup_app_l_Some.
Qed.

Lemma loader_headers_trimmed_only_witness :
  ∃ t', Loader.df (λ _, Return Loader.table_without_quality) = Return t'
        ∧ ∀ j s, Loader.columns Loader.table_without_quality !! j = Some s →
            ∃ s' before after,
              Loader.columns t' !! j = Some s'
              ∧ s = before +:+ s' +:+ after
              ∧ Loader.all_space before = true
              ∧ Loader.all_space after = true
              ∧ Loader.trimmed s'.
Proof.
  apply (loader_headers_trimmed_only (λ _, Return Loader.table_without_quality)
           Loader.table_without_quality).
  reflexivity.
Defined.


